(** * AliRoot fragments: a shallow embedding and its verified properties

    The development follows three translation units of the repository:

    - [STEER/AOD/AliNanoAODStorage.cxx]  (module [NanoAODStorage]),
    - [MUON/AliMUONReconstructor.cxx]    (module [MUONReconstructor]),
    - [EVGEN/AliGenParam.cxx]            (modules [GenParam] and
      [GenParamFloat]).

    ROOT's [TString] operations that the code relies on are collected in
    the module [TStr].  [Int_t] values are integers of [Z]: the counters
    that are incremented below stay within the length of a string, the
    size of an array or the requested number of particles, where an
    [Int_t] does not wrap around. *)

From Stdlib Require Import ZArith List Bool Ascii String Lia Permutation.
From Stdlib Require Import Numbers.DecimalString.
From Stdlib Require Import Floats.PrimFloat Floats.SpecFloat.
From Stdlib Require Import Reals Lra.
From stdpp Require Import gmap.

#[local] Arguments String.append !s1 s2 : simpl nomatch.

Local Open Scope string_scope.
Local Open Scope list_scope.
Local Open Scope Z_scope.

(** ** Logging and abnormal termination (AliLog.h) *)

Inductive LogLevel := kInfo | kWarning | kError | kFatal.

Definition LogEntry : Type := LogLevel * string.

Definition AliInfo (msg : string) : LogEntry := (kInfo, msg).
Definition AliWarning (msg : string) : LogEntry := (kWarning, msg).
Definition AliError (msg : string) : LogEntry := (kError, msg).

(** The result of a call: a normal return, the abort raised by [AliFatal]
    (with its message), a C++ exception leaving the function, or undefined
    behaviour (a null or dangling pointer is dereferenced, an array is
    indexed past its end). *)
Inductive result (A : Type) : Type :=
| Ok (a : A)
| Fatal (msg : string)
| Throw (what : string)
| Undefined.

Arguments Ok {A} a.
Arguments Fatal {A} msg.
Arguments Throw {A} what.
Arguments Undefined {A}.

Definition bind {A B : Type} (r : result A) (k : A -> result B) : result B :=
  match r with
  | Ok a => k a
  | Fatal msg => Fatal msg
  | Throw w => Throw w
  | Undefined => Undefined
  end.

Notation "'let*' x ':=' r 'in' k" := (bind r (fun x => k))
  (at level 10, x name, r at level 100, k at level 200).

(** [Form("%d", n)] *)
Definition Form_d (n : Z) : string := NilEmpty.string_of_int (Z.to_int n).

(** ** TString *)

Module TStr.

(** [toupper] in the C locale. *)
Definition toupper (c : ascii) : ascii :=
  let n := nat_of_ascii c in
  if (97 <=? n)%nat && (n <=? 122)%nat then ascii_of_nat (n - 32) else c.

Fixpoint ToUpper (s : string) : string :=
  match s with
  | EmptyString => EmptyString
  | String c r => String (toupper c) (ToUpper r)
  end.

(** The needle is read at the start of the string. *)
Fixpoint starts_with (s needle : string) {struct needle} : bool :=
  match needle with
  | EmptyString => true
  | String a needle' =>
      match s with
      | EmptyString => false
      | String b s' => Ascii.eqb a b && starts_with s' needle'
      end
  end.

(** [strstr(haystack, needle) != 0], which is also
    [haystack.Contains(needle)]: the needle occurs at some offset. *)
Fixpoint strstr (haystack needle : string) : bool :=
  starts_with haystack needle ||
  match haystack with
  | EmptyString => false
  | String _ r => strstr r needle
  end.

Definition Contains (s pat : string) : bool := strstr s pat.

(** The mathematical notion the two functions decide. *)
Definition Substring (pat s : string) : Prop :=
  exists pre post, s = String.append pre (String.append pat post).

(** [Strip(TString::kLeading, c)] and [Strip(TString::kTrailing, c)]. *)
Fixpoint strip_leading (c : ascii) (s : string) : string :=
  match s with
  | EmptyString => EmptyString
  | String a r => if Ascii.eqb a c then strip_leading c r else s
  end.

Fixpoint strip_trailing (c : ascii) (s : string) : string :=
  match s with
  | EmptyString => EmptyString
  | String a r =>
      match strip_trailing c r with
      | EmptyString => if Ascii.eqb a c then EmptyString else String a EmptyString
      | r' => String a r'
      end
  end.

(** [Strip(TString::kBoth, c)] *)
Definition Strip (c : ascii) (s : string) : string :=
  strip_trailing c (strip_leading c s).

Fixpoint is_delim (delim : string) (c : ascii) : bool :=
  match delim with
  | EmptyString => false
  | String d r => Ascii.eqb c d || is_delim r c
  end.

(** [Tokenize(delim)]: the maximal runs of characters that are not
    delimiters, in order; a run of length zero is not a token. [cur] is
    the token being read. *)
Fixpoint Tokenize_from (delim : string) (cur : string) (s : string) : list string :=
  match s with
  | EmptyString =>
      match cur with EmptyString => [] | _ => [cur] end
  | String a r =>
      if is_delim delim a then
        match cur with
        | EmptyString => Tokenize_from delim EmptyString r
        | _ => cur :: Tokenize_from delim EmptyString r
        end
      else Tokenize_from delim (String.append cur (String a EmptyString)) r
  end.

Definition Tokenize (delim : string) (s : string) : list string :=
  Tokenize_from delim EmptyString s.

(** No character of the string is a delimiter. *)
Fixpoint no_delim (delim : string) (s : string) : bool :=
  match s with
  | EmptyString => true
  | String a r => negb (is_delim delim a) && no_delim delim r
  end.

End TStr.

(** ** AliNanoAODStorage *)

Module NanoAODStorage.

(** The data members: two [std::vector]s and their recorded sizes. *)
Record AliNanoAODStorage : Type := mkStorage {
  fNVars : Z;
  fVars : list float;
  fNVarsString : Z;
  fVarsString : list string
}.

(** The class invariant kept by every member function: the recorded
    sizes are the sizes of the vectors. *)
Definition consistent (s : AliNanoAODStorage) : Prop :=
  fNVars s = Z.of_nat (length (fVars s)) /\
  fNVarsString s = Z.of_nat (length (fVarsString s)).

(** [v.clear(); v.resize(n, x)] for an [Int_t] n: a negative n converts
    to a [size_type] above [max_size()], and [resize] throws. *)
Definition clear_resize {A : Type} (n : Z) (x : A) : result (list A) :=
  if n <? 0 then Throw "std::length_error" else Ok (repeat x (Z.to_nat n)).

Definition AllocateInternalStorage (size sizeString : Z) (s : AliNanoAODStorage)
  : list LogEntry * result AliNanoAODStorage :=
  if size =? 0 then ([AliError "Zero size"], Ok s)
  else
    ([],
     let* vars := clear_resize size 0%float in
     let s1 := mkStorage size vars (fNVarsString s) (fVarsString s) in
     if 0 <? sizeString then
       let* strs := clear_resize sizeString EmptyString in
       Ok (mkStorage size vars sizeString strs)
     else Ok s1).

(** [AllocateInternalStorage(Int_t size)] *)
Definition AllocateInternalStorage1 (size : Z) (s : AliNanoAODStorage) :=
  AllocateInternalStorage size 0 s.

(** [AliNanoAODStorage::Complain] *)
Definition Complain {A : Type} (index : Z) : result A :=
  Fatal (String.append "Variable "
           (String.append (Form_d index) " not included in this special aod")).

(** Modelled from the spec: the accessors [GetVar], [SetVar],
    [GetVarString] and [SetVarString] are defined in AliNanoAODStorage.h,
    which is not among the sources; the specification describes them as
    thin data-storage accessors with bounds checks, an index outside the
    allocated range going to [Complain]. *)
Definition in_range (index n : Z) : bool := (0 <=? index) && (index <? n).

Definition GetVar (s : AliNanoAODStorage) (index : Z) : result float :=
  if in_range index (fNVars s)
  then Ok (nth (Z.to_nat index) (fVars s) 0%float)
  else Complain index.

Definition SetVar (index : Z) (var : float) (s : AliNanoAODStorage)
  : result AliNanoAODStorage :=
  if in_range index (fNVars s)
  then Ok (mkStorage (fNVars s) (<[Z.to_nat index := var]> (fVars s))
             (fNVarsString s) (fVarsString s))
  else Complain index.

Definition GetVarString (s : AliNanoAODStorage) (index : Z) : result string :=
  if in_range index (fNVarsString s)
  then Ok (nth (Z.to_nat index) (fVarsString s) EmptyString)
  else Complain index.

Definition SetVarString (index : Z) (var : string) (s : AliNanoAODStorage)
  : result AliNanoAODStorage :=
  if in_range index (fNVarsString s)
  then Ok (mkStorage (fNVars s) (fVars s)
             (fNVarsString s) (<[Z.to_nat index := var]> (fVarsString s)))
  else Complain index.

(** *** Assignment

    [operator=] takes [sto] by reference, so the two objects may be one:
    the objects live in a store indexed by address and the operator
    works on the addresses of [*this] and of [sto]. *)

Definition copy_var (sto : AliNanoAODStorage) (this : result AliNanoAODStorage)
  (isize : nat) : result AliNanoAODStorage :=
  let* t := this in
  let* v := GetVar sto (Z.of_nat isize) in
  SetVar (Z.of_nat isize) v t.

Definition copy_var_string (sto : AliNanoAODStorage) (this : result AliNanoAODStorage)
  (isize : nat) : result AliNanoAODStorage :=
  let* t := this in
  let* v := GetVarString sto (Z.of_nat isize) in
  SetVarString (Z.of_nat isize) v t.

(** The two [for] loops of the operator, for distinct objects. *)
Definition copy_loops (sto this : AliNanoAODStorage) : result AliNanoAODStorage :=
  let r := fold_left (copy_var sto) (seq 0 (Z.to_nat (fNVars sto))) (Ok this) in
  fold_left (copy_var_string sto) (seq 0 (Z.to_nat (fNVarsString sto))) r.

(** [operator=], for the objects at the addresses [this] and [sto] of the
    store [h]; the result is the store after the assignment. *)
Definition assign (this sto : nat) (h : gmap nat AliNanoAODStorage)
  : list LogEntry * result (gmap nat AliNanoAODStorage) :=
  match h !! sto, h !! this with
  | Some s, Some t =>
      let (log, r) := AllocateInternalStorage (fNVars s) (fNVarsString s) t in
      (log,
       let* t1 := r in
       let h1 := <[this := t1]> h in
       if decide (this <> sto) then
         match h1 !! sto with
         | Some s1 => let* t2 := copy_loops s1 t1 in Ok (<[this := t2]> h1)
         | None => Undefined
         end
       else Ok h1)
  | _, _ => ([], Undefined)
  end.

(** *** GetStringParameters *)

Definition stringVariables : string := "FiredTriggerClasses".

(** The test made on one token in the body of the [while] loop. *)
Definition counted (token : string) : bool :=
  TStr.Contains stringVariables (TStr.Strip " "%char token).

Definition GetStringParameters (varListHeader : string) : Z :=
  let vars := TStr.Tokenize "," varListHeader in
  fold_left (fun stringVars token =>
               if counted token then stringVars + 1 else stringVars)
            vars 0.

(** A storage with two numeric variables and one string variable, for
    the examples. *)
Definition two_vars : AliNanoAODStorage :=
  mkStorage 2 [1%float; 2%float] 1 ["CINT7-B"].

End NanoAODStorage.


(** ** AliMUONReconstructor *)

Module MUONReconstructor.

(** The clusterizers that [CreateClusterFinder] builds, all of them
    [AliMUONVClusterFinder]s; a constructor argument is the flag and the
    pre-clusterizer handed to the C++ constructor. *)
Inductive AliMUONVClusterFinder : Type :=
| AliMUONPreClusterFinder
| AliMUONPreClusterFinderV2
| AliMUONPreClusterFinderV3
| AliMUONClusterFinderPeakCOG (plot : bool) (clusterFinder : AliMUONVClusterFinder)
| AliMUONClusterFinderPeakFit (plot : bool) (clusterFinder : AliMUONVClusterFinder)
| AliMUONClusterFinderCOG (clusterFinder : AliMUONVClusterFinder)
| AliMUONClusterFinderSimpleFit (clusterFinder : AliMUONVClusterFinder)
| AliMUONClusterFinderMLEM (plot : bool) (clusterFinder : AliMUONVClusterFinder).

Definition kTRUE : bool := true.
Definition kFALSE : bool := false.

Definition dquote : string := String "034"%char EmptyString.

(** [Form("clustering mode \"%s\" does not exist", opt.Data())] *)
Definition no_such_mode (opt : string) : string :=
  String.append "clustering mode "
    (String.append dquote
       (String.append opt (String.append dquote " does not exist"))).

(** The argument is the content of the C string [clusterFinderType]
    (0x0 is read by [TString] as the empty string). The result is the
    pointer returned, [None] for 0x0. *)
Definition CreateClusterFinder (clusterFinderType : string)
  : list LogEntry * option AliMUONVClusterFinder :=
  let opt := TStr.ToUpper clusterFinderType in
  if TStr.strstr opt "PRECLUSTERV2" then
    ([], Some AliMUONPreClusterFinderV2)
  else if TStr.strstr opt "PRECLUSTERV3" then
    ([], Some AliMUONPreClusterFinderV3)
  else if TStr.strstr opt "PRECLUSTER" then
    ([], Some AliMUONPreClusterFinder)
  else if TStr.strstr opt "PEAKCOG" then
    ([], Some (AliMUONClusterFinderPeakCOG kFALSE AliMUONPreClusterFinder))
  else if TStr.strstr opt "PEAKFIT" then
    ([], Some (AliMUONClusterFinderPeakFit kFALSE AliMUONPreClusterFinder))
  else if TStr.strstr opt "COG" then
    ([], Some (AliMUONClusterFinderCOG AliMUONPreClusterFinder))
  else if TStr.strstr opt "SIMPLEFITV3" then
    ([], Some (AliMUONClusterFinderSimpleFit
                 (AliMUONClusterFinderCOG AliMUONPreClusterFinderV3)))
  else if TStr.strstr opt "SIMPLEFIT" then
    ([], Some (AliMUONClusterFinderSimpleFit
                 (AliMUONClusterFinderCOG AliMUONPreClusterFinder)))
  else if TStr.strstr opt "MLEM:DRAW" then
    ([], Some (AliMUONClusterFinderMLEM kTRUE AliMUONPreClusterFinder))
  else if TStr.strstr opt "MLEMV3" then
    ([], Some (AliMUONClusterFinderMLEM kFALSE AliMUONPreClusterFinderV3))
  else if TStr.strstr opt "MLEMV2" then
    ([], Some (AliMUONClusterFinderMLEM kFALSE AliMUONPreClusterFinderV2))
  else if TStr.strstr opt "MLEM" then
    ([], Some (AliMUONClusterFinderMLEM kFALSE AliMUONPreClusterFinder))
  else
    ([AliError (no_such_mode opt)], None).

(** *** The reconstructor object and what it talks to *)

(** [AliMUONRecoParam], as far as the functions below read it. *)
Record AliMUONRecoParam : Type := mkRecoParam {
  GetClusteringMode : string;
  GetCalibrationMode : string
}.

(** [AliMUONCalibrationData(runNumber)]: the object only remembers its
    run; what it finds is in the conditions database. *)
Record AliMUONCalibrationData : Type := mkCalibrationData {
  fRunNumber : Z
}.

(** The conditions database behind [AliCDBManager::Instance()]: the run
    that is set, and for each run whether the calibration object is valid
    and whether [Pedestals()], [Gains()] and [HV()] return an object
    (true) or 0x0 (false). The class AliMUONCalibrationData is not among
    the sources, so its answers are parameters of the model. *)
Record AliCDBManager : Type := mkCDB {
  GetRun : Z;
  IsValid : Z -> bool;
  Pedestals : Z -> bool;
  Gains : Z -> bool;
  HV : Z -> bool
}.

(** [AliMUONDigitCalibrator(calib, recoParams, calibMode)] *)
Record AliMUONDigitCalibrator : Type := mkDigitCalibrator {
  calib : AliMUONCalibrationData;
  recoParams : AliMUONRecoParam;
  calibMode : string
}.

(** Digit stores live on the heap and are known by their address; the
    heap records the class of the object at each address (its
    [ClassName()]). An address is never reused. *)
Abbreviation Heap := (list string).

(** The data members the functions below touch, with the option string
    and the reconstruction parameters of the base class
    [AliReconstructor]. A pointer is [None] when it is 0x0. *)
Record AliMUONReconstructor : Type := mkReconstructor {
  GetOption : string;
  GetRecoParam : AliMUONRecoParam;
  fDigitStore : option nat;
  fCalibrationData : option AliMUONCalibrationData;
  fDigitCalibrator : option AliMUONDigitCalibrator
}.

Definition SetOption (option : string) (r : AliMUONReconstructor) : AliMUONReconstructor :=
  mkReconstructor option (GetRecoParam r) (fDigitStore r)
    (fCalibrationData r) (fDigitCalibrator r).

Definition set_fDigitStore (p : option nat) (r : AliMUONReconstructor) : AliMUONReconstructor :=
  mkReconstructor (GetOption r) (GetRecoParam r) p
    (fCalibrationData r) (fDigitCalibrator r).

Definition set_fCalibrationData (p : option AliMUONCalibrationData)
  (r : AliMUONReconstructor) : AliMUONReconstructor :=
  mkReconstructor (GetOption r) (GetRecoParam r) (fDigitStore r)
    p (fDigitCalibrator r).

Definition set_fDigitCalibrator (p : option AliMUONDigitCalibrator)
  (r : AliMUONReconstructor) : AliMUONReconstructor :=
  mkReconstructor (GetOption r) (GetRecoParam r) (fDigitStore r)
    (fCalibrationData r) p.

(** The reconstructor as its constructor leaves it. *)
Definition new_AliMUONReconstructor (option : string) (param : AliMUONRecoParam)
  : AliMUONReconstructor :=
  mkReconstructor option param None None None.

(** How a member function ends: it returns, or [AliFatal] aborts the
    program in the state reached. *)
Inductive outcome : Type :=
| Returns (r : AliMUONReconstructor)
| Aborts (msg : string) (r : AliMUONReconstructor).

Definition CreateCalibrator (cdb : AliCDBManager) (r : AliMUONReconstructor)
  : list LogEntry * outcome :=
  let runNumber := GetRun cdb in
  let log := [AliInfo "Calibration will occur."] in
  let data := mkCalibrationData runNumber in
  let r1 := set_fCalibrationData (Some data) r in
  if negb (IsValid cdb (fRunNumber data)) then
    (log ++ [AliError "Could not retrieve calibrations !"],
     Returns (set_fCalibrationData None r1))
  else if negb (Pedestals cdb (fRunNumber data))
          || negb (Gains cdb (fRunNumber data))
          || negb (HV cdb (fRunNumber data)) then
    (log, Aborts "Could not access all required calibration data" r1)
  else
    let opt := TStr.ToUpper (GetOption r1) in
    let log1 :=
      if TStr.strstr opt "NOSTATUSMAP"
      then log ++ [AliWarning "NOSTATUSMAP is obsolete"] else log in
    let calibMode := GetCalibrationMode (GetRecoParam r1) in
    (log1,
     Returns (set_fDigitCalibrator
                (Some (mkDigitCalibrator data (GetRecoParam r1) calibMode)) r1)).

Section DigitStore.

(** [AliMUONVDigitStore::Create(classname)] is not among the sources. It
    is a factory by class name: [instantiable classname] says whether the
    class is found and can be instantiated, in which case a new object of
    that class is returned, and 0x0 otherwise. *)
Variable instantiable : string -> bool.

Definition Create (classname : string) (heap : Heap) : option nat * Heap :=
  if instantiable classname
  then (Some (length heap), heap ++ [classname])
  else (None, heap).

(** [p->ClassName()] *)
Definition ClassName (heap : Heap) (p : nat) : option string := heap !! p.

Definition DigitStore (r : AliMUONReconstructor) (heap : Heap)
  : list LogEntry * result (option nat * AliMUONReconstructor * Heap) :=
  match fDigitStore r with
  | None =>
      let sopt := TStr.ToUpper (GetOption r) in
      let log := [AliInfo (String.append "Options=" sopt)] in
      let '(p, heap1) :=
        if TStr.Contains sopt "DIGITSTOREV1" then
          Create "AliMUONDigitStoreV1" heap
        else if TStr.Contains sopt "DIGITSTOREV2R" then
          Create "AliMUONDigitStoreV2R" heap
        else if TStr.Contains sopt "DIGITSTOREV2S" then
          Create "AliMUONDigitStoreV2S" heap
        else (None, heap) in
      let '(p, heap2) :=
        match p with
        | None => Create "AliMUONDigitStoreV2R" heap1
        | Some _ => (p, heap1)
        end in
      match p with
      | Some a =>
          match ClassName heap2 a with
          | Some name =>
              (log ++ [AliInfo (String.append "Will use "
                          (String.append name
                             " to store digits during reconstruction"))],
               Ok (p, set_fDigitStore p r, heap2))
          | None => (log, Undefined)
          end
      | None => (log, Undefined)
      end
  | Some _ => ([], Ok (fDigitStore r, r, heap))
  end.

(** The class of the store that a call returns, if it returns one. *)
Definition DigitStore_class (r : AliMUONReconstructor) (heap : Heap) : option string :=
  match DigitStore r heap with
  | (_, Ok (Some a, _, heap')) => ClassName heap' a
  | _ => None
  end.

End DigitStore.

(** *** The statements to compare the code with *)

(** The recognised mode substrings in the order of the tests, each with the
    clusterizer built for it. *)
Definition clustering_modes : list (string * AliMUONVClusterFinder) :=
  [ ("PRECLUSTERV2", AliMUONPreClusterFinderV2);
    ("PRECLUSTERV3", AliMUONPreClusterFinderV3);
    ("PRECLUSTER", AliMUONPreClusterFinder);
    ("PEAKCOG", AliMUONClusterFinderPeakCOG false AliMUONPreClusterFinder);
    ("PEAKFIT", AliMUONClusterFinderPeakFit false AliMUONPreClusterFinder);
    ("COG", AliMUONClusterFinderCOG AliMUONPreClusterFinder);
    ("SIMPLEFITV3",
      AliMUONClusterFinderSimpleFit (AliMUONClusterFinderCOG AliMUONPreClusterFinderV3));
    ("SIMPLEFIT",
      AliMUONClusterFinderSimpleFit (AliMUONClusterFinderCOG AliMUONPreClusterFinder));
    ("MLEM:DRAW", AliMUONClusterFinderMLEM true AliMUONPreClusterFinder);
    ("MLEMV3", AliMUONClusterFinderMLEM false AliMUONPreClusterFinderV3);
    ("MLEMV2", AliMUONClusterFinderMLEM false AliMUONPreClusterFinderV2);
    ("MLEM", AliMUONClusterFinderMLEM false AliMUONPreClusterFinder) ].

(** Selection by first match in the table. *)
Definition CreateClusterFinder_spec (clusterFinderType : string)
  : list LogEntry * option AliMUONVClusterFinder :=
  let opt := TStr.ToUpper clusterFinderType in
  match List.find (fun m => TStr.strstr opt (fst m)) clustering_modes with
  | Some m => ([], Some (snd m))
  | None => ([AliError (no_such_mode opt)], None)
  end.

(** The digit store class for an upper-cased option string, the flags
    taking precedence in the order V1, V2R, V2S. *)
Definition DigitStore_class_spec (sopt : string) : string :=
  if TStr.Contains sopt "DIGITSTOREV1" then "AliMUONDigitStoreV1"
  else if TStr.Contains sopt "DIGITSTOREV2R" then "AliMUONDigitStoreV2R"
  else if TStr.Contains sopt "DIGITSTOREV2S" then "AliMUONDigitStoreV2S"
  else "AliMUONDigitStoreV2R".

(** Objects for the examples. *)
Definition default_param : AliMUONRecoParam := mkRecoParam "MLEM" "NOGAIN".

Definition all_classes (classname : string) : bool := true.

Definition good_run : AliCDBManager :=
  mkCDB 137161 (fun _ => true) (fun _ => true) (fun _ => true) (fun _ => true).

Definition invalid_run : AliCDBManager :=
  mkCDB 0 (fun _ => false) (fun _ => true) (fun _ => true) (fun _ => true).

Definition run_without_HV : AliCDBManager :=
  mkCDB 137161 (fun _ => true) (fun _ => true) (fun _ => true) (fun _ => false).

End MUONReconstructor.


(** ** AliGenParam

    [Float_t] and [Double_t] quantities are real numbers here and the
    functions of [TMath] are the real functions they compute: rounding,
    infinities and NaN are outside the model. The module [GenParamFloat]
    follows [Generate] in floating point. *)

Module GenParam.

Local Open Scope R_scope.

Definition Rltb (x y : R) : bool := if Rlt_dec x y then true else false.
Definition Rgtb (x y : R) : bool := Rltb y x.

(** The functions of [TMath] that the generator calls. *)
Definition Pi : R := PI.
Definition Sqrt (x : R) : R := sqrt x.
Definition Cos (x : R) : R := cos x.
Definition Sin (x : R) : R := sin x.
Definition Log (x : R) : R := ln x.
Definition TanH (x : R) : R := tanh x.

(** [TMath::ATan2(y, x)]: the angle of the point (x, y), in (-Pi, Pi]. *)
Definition ATan2 (y x : R) : R :=
  if Rlt_dec 0 x then atan (y / x)
  else if Rlt_dec x 0 then
    if Rle_dec 0 y then atan (y / x) + PI else atan (y / x) - PI
  else if Rlt_dec 0 y then PI / 2
  else if Rlt_dec y 0 then - (PI / 2)
  else 0.

(** The decay modes that [Init] distinguishes; [other_decay] stands for
    the remaining enumerators of [Decay_t], which the [switch] does not
    list. *)
Inductive Decay_t : Type :=
| semielectronic | dielectron | semimuonic | dimuon
| b_jpsi_dimuon | b_psip_dimuon | b_jpsi_dielectron | b_psip_dielectron
| pitomu | katomu | other_decay.

Inductive VertexSmear_t : Type := no_smear | perEvent | perTrack.

(** The data members of the generator (those of the base class
    [AliGenerator] included) that [Init], [Generate], [ChildSelected] and
    [KinematicSelection] read or write. [fAnalog] and [fCutOnChild] are
    kept as the truth values the [if]s see; [fPtParaFunc] is the function
    pointer, called on one argument. Arrays are lists. *)
Record AliGenParam : Type := mkGenParam {
  fNpart : Z;
  fPMin : R; fPMax : R;
  fPtMin : R; fPtMax : R;
  fPhiMin : R; fPhiMax : R;
  fThetaMin : R; fThetaMax : R;
  fOrigin : list R; fOsigma : list R;
  fVertexSmear : VertexSmear_t;
  fTrackIt : Z;
  fAnalog : bool;
  fParentWeight : R;
  fPtParaFunc : R -> R;
  fForceDecay : Decay_t;
  fChildSelect : list Z;
  fCutOnChild : bool
}.

Definition set_fChildSelect (a : list Z) (g : AliGenParam) : AliGenParam :=
  mkGenParam (fNpart g) (fPMin g) (fPMax g) (fPtMin g) (fPtMax g)
    (fPhiMin g) (fPhiMax g) (fThetaMin g) (fThetaMax g)
    (fOrigin g) (fOsigma g) (fVertexSmear g) (fTrackIt g) (fAnalog g)
    (fParentWeight g) (fPtParaFunc g) (fForceDecay g) a (fCutOnChild g).

(** [ForceDecay(decay)] *)
Definition ForceDecay (decay : Decay_t) (g : AliGenParam) : AliGenParam :=
  mkGenParam (fNpart g) (fPMin g) (fPMax g) (fPtMin g) (fPtMax g)
    (fPhiMin g) (fPhiMax g) (fThetaMin g) (fThetaMax g)
    (fOrigin g) (fOsigma g) (fVertexSmear g) (fTrackIt g) (fAnalog g)
    (fParentWeight g) (fPtParaFunc g) decay (fChildSelect g) (fCutOnChild g).

(** [fChildSelect.Set(5); for (i=0; i<5; i++) fChildSelect[i]=0;] in the
    constructor [AliGenParam(npart, param)]. *)
Definition constructed (g : AliGenParam) : Prop :=
  fChildSelect g = [0; 0; 0; 0; 0]%Z.

(** [Init], the part headed "particle decay related initialization": the
    [switch] on [fForceDecay]. The statements before it build the two
    [TF1] objects and the weights and do not touch [fChildSelect]. *)
Definition Init (g : AliGenParam) : AliGenParam :=
  match fForceDecay g with
  | semielectronic | dielectron | b_jpsi_dielectron | b_psip_dielectron =>
      set_fChildSelect (<[0%nat := 11%Z]> (fChildSelect g)) g
  | semimuonic | dimuon | b_jpsi_dimuon | b_psip_dimuon =>
      set_fChildSelect (<[0%nat := 13%Z]> (fChildSelect g)) g
  | pitomu =>
      set_fChildSelect (<[0%nat := 13%Z]> (fChildSelect g)) g
  | katomu =>
      set_fChildSelect (<[0%nat := 13%Z]> (fChildSelect g)) g
  | other_decay => g
  end.

(** The [for] loop of [ChildSelected] from index [i] on. *)
Fixpoint ChildSelected_from (a : list Z) (ip : Z) (i n : nat) : bool :=
  match n with
  | O => false
  | S n' => if (nth i a 0 =? ip)%Z then true else ChildSelected_from a ip (S i) n'
  end.

Definition ChildSelected (g : AliGenParam) (ip : Z) : bool :=
  ChildSelected_from (fChildSelect g) ip 0 5.

(** [TParticle], as far as it is read. *)
Record TParticle : Type := mkParticle {
  GetPdgCode : Z;
  Px : R; Py : R; Pz : R;
  Vx : R; Vy : R; Vz : R
}.

Definition KinematicSelection (g : AliGenParam) (particle : TParticle) : bool :=
  let px := Px particle in
  let py := Py particle in
  let pz := Pz particle in
  let p := Sqrt (px * px + py * py + pz * pz) in
  if Rgtb p (fPMax g) || Rltb p (fPMin g) then false
  else
    let pt := Sqrt (px * px + py * py) in
    let theta := ATan2 pt p in
    if Rgtb theta (fThetaMax g) || Rltb theta (fThetaMin g) then false
    else true.

(** *** Generate *)

(** A track handed to [gAlice->SetTrack]. The parent is tracked with the
    array [origin], which [Generate] declares and never fills: its
    position is [None]. [kept] records a later [KeepTrack]. *)
Record Track : Type := mkTrack {
  done : Z;
  parent : Z;
  pdg : Z;
  pmom : list R;
  vpos : option (list R);
  polar : list R;
  tof : R;
  mecha : string;
  weight : R;
  kept : bool
}.

(** What one pass through the body of [while(1)] obtains from the
    parametrisation, from the random generator and from the decayer, in
    the order of the calls. *)
Record Draw : Type := mkDraw {
  IpParaFunc : Z;          (* fIpParaFunc() *)
  GetBraPart : R;          (* fPythia->GetBraPart(Ipart) *)
  GetPMAS : R;             (* fPythia->GetPMAS(fPythia->LuComp(Ipart),1) *)
  Rndm2 : list R;          (* gMC->Rndm(random,2) *)
  YParaRandom : R;         (* fYPara->GetRandom() *)
  PtParaRandom : R;        (* fPtPara->GetRandom() *)
  Rndm6 : list R;          (* gMC->Rndm(random,6), vertex smearing per track *)
  ImportParticles : list TParticle  (* the decay products, entry 0 first *)
}.

(** [fOrigin[j] + fOsigma[j]*Cos(2*random[2*j]*Pi)*Sqrt(-2*Log(random[2*j+1]))]
    for j = 0, 1, 2, added to [base]. *)
Definition smear (base sigma random : list R) : list R :=
  map (fun j =>
         nth j base 0 +
         nth j sigma 0 * Cos (2 * nth (2 * j) random 0 * Pi)
         * Sqrt (- 2 * Log (nth (2 * j + 1) random 0)))
      [0; 1; 2]%nat.

(** The variables of [Generate] that live across iterations. *)
Record Locals : Type := mkLocals {
  ipa : Z;
  origin0 : list R;
  fChildWeight : R;
  stack : list Track
}.

(** The test on one selected child when [fCutOnChild] is set. *)
Definition child_in_cuts (g : AliGenParam) (pc : list R) : bool :=
  let PtChild := Sqrt (nth 0 pc 0 * nth 0 pc 0 + nth 1 pc 0 * nth 1 pc 0) in
  let PChild := Sqrt (PtChild * PtChild + nth 2 pc 0 * nth 2 pc 0) in
  let ThetaChild := ATan2 PtChild (nth 2 pc 0) in
  let PhiChild := ATan2 (nth 1 pc 0) (nth 0 pc 0) + Pi in
  (Rgtb PtChild (fPtMin g) && Rltb PtChild (fPtMax g)) &&
  (Rgtb PChild (fPMin g) && Rltb PChild (fPMax g)) &&
  (Rgtb ThetaChild (fThetaMin g) && Rltb ThetaChild (fThetaMax g)) &&
  (Rgtb PhiChild (fPhiMin g) && Rltb PhiChild (fPhiMax g)).

(** The decay particle loop, on the particles from index 1 on. [sel] holds
    the filled rows of [pch] and [kfch] (there are ten rows), [och] the
    last child origin computed. The result is [ncsel] with the rows. *)
Fixpoint select_children (g : AliGenParam) (orig : list R)
  (particles : list TParticle) (sel : list (list R * Z)) (och : option (list R))
  : result (Z * list (list R * Z) * option (list R)) :=
  match particles with
  | [] => Ok (Z.of_nat (length sel), sel, och)
  | iparticle :: rest =>
      let kf := GetPdgCode iparticle in
      if ChildSelected g (Z.abs kf) then
        let pc := [Px iparticle; Py iparticle; Pz iparticle] in
        let och1 := Some [nth 0 orig 0 + Vx iparticle / 10;
                          nth 1 orig 0 + Vy iparticle / 10;
                          nth 2 orig 0 + Vz iparticle / 10] in
        if fCutOnChild g && negb (child_in_cuts g pc) then
          Ok ((-1)%Z, sel, och1)
        else if (10 <=? length sel)%nat then Undefined
        else select_children g orig rest (sel ++ [(pc, kf)]) och1
      else select_children g orig rest sel och
  end.

(** The two ways the body of [while(1)] is left. *)
Inductive exit : Type :=
| Continue (l : Locals)
| Break (l : Locals).

Definition locals_of (e : exit) : Locals :=
  match e with Continue l | Break l => l end.

(** The [SetTrack] of the children, each followed by [KeepTrack]. *)
Definition child_tracks (g : AliGenParam) (iparent : Z) (wgtch : R)
  (och : option (list R)) (sel : list (list R * Z)) : list Track :=
  map (fun c => mkTrack (fTrackIt g) iparent (snd c) (fst c) och
                  [0; 0; 0] 0 "Decay" wgtch true) sel.

(** One pass through the body of [while(1)]; [nt0] is the number of
    tracks on the stack before [Generate] ran (track numbers count from
    0). *)
Definition iteration (g : AliGenParam) (nt0 : Z) (d : Draw) (l : Locals)
  : result exit :=
  let Ipart := IpParaFunc d in
  let childWeight := GetBraPart d * fParentWeight g in
  let l := mkLocals (ipa l) (origin0 l) childWeight (stack l) in
  let am := GetPMAS d in
  let phi := fPhiMin g + nth 0 (Rndm2 d) 0 * (fPhiMax g - fPhiMin g) in
  let ty := TanH (YParaRandom d) in
  let pt := if fAnalog g then PtParaRandom d
            else fPtMin g + nth 1 (Rndm2 d) 0 * (fPtMax g - fPtMin g) in
  let wgtp := if fAnalog g then fParentWeight g
              else fParentWeight g * fPtParaFunc g pt in
  let wgtch := if fAnalog g then childWeight
               else childWeight * fPtParaFunc g pt in
  let xmt := sqrt (pt * pt + am * am) in
  let pl := xmt * ty / sqrt (1 - ty * ty) in
  let theta := ATan2 pt pl in
  if Rltb theta (fThetaMin g) || Rgtb theta (fThetaMax g) then Ok (Continue l)
  else
    let ptot := Sqrt (pt * pt + pl * pl) in
    if Rltb ptot (fPMin g) || Rgtb ptot (fPMax g) then Ok (Continue l)
    else
      let p := [pt * Cos phi; pt * Sin phi; pl] in
      let orig := match fVertexSmear g with
                  | perTrack => smear (fOrigin g) (fOsigma g) (Rndm6 d)
                  | _ => origin0 l
                  end in
      let* r := select_children g orig (tl (ImportParticles d)) [] None in
      let '(ncsel, sel, och) := r in
      if (fCutOnChild g && (0 <? ncsel)%Z) || negb (fCutOnChild g) then
        let iparent := (nt0 + Z.of_nat (length (stack l)))%Z in
        let primary := mkTrack 0 (-1) Ipart p None [0; 0; 0] 0 "Primary" wgtp false in
        Ok (Break (mkLocals (ipa l + 1) orig childWeight
                     (stack l ++ primary :: child_tracks g iparent wgtch och sel)))
      else Ok (Break (mkLocals (ipa l) orig childWeight (stack l))).

(** The two nested loops, run on a supply of draws. [inner] tells that
    control is inside [while(1)] (it came back through [continue]), where
    the test [ipa<fNpart] of the outer loop is not made. The boolean of
    the result tells whether [Generate] has returned; it is false when
    the supply ends first. *)
Fixpoint event_loop (g : AliGenParam) (nt0 : Z) (draws : list Draw)
  (inner : bool) (l : Locals) : result (bool * Locals) :=
  if inner || (ipa l <? fNpart g)%Z then
    match draws with
    | [] => Ok (false, l)
    | d :: ds =>
        let* e := iteration g nt0 d l in
        match e with
        | Continue l1 => event_loop g nt0 ds true l1
        | Break l1 => event_loop g nt0 ds false l1
        end
    end
  else Ok (true, l).

(** [Generate]: [random_event] is what [gMC->Rndm(random,6)] gives when
    the vertex is smeared per event, [childWeight0] the value of the
    member [fChildWeight] on entry. *)
Definition Generate (g : AliGenParam) (nt0 : Z) (childWeight0 : R)
  (random_event : list R) (draws : list Draw) : result (bool * Locals) :=
  let orig := match fVertexSmear g with
              | perEvent => smear (fOrigin g) (fOsigma g) random_event
              | _ => fOrigin g
              end in
  event_loop g nt0 draws false (mkLocals 0 orig childWeight0 []).

(** *** Quantities named in the statements *)

(** The [pt], [pl], [theta] and [ptot] that one pass computes from a
    draw, as in the body of the loop. *)
Definition candidate_pt (g : AliGenParam) (d : Draw) : R :=
  if fAnalog g then PtParaRandom d
  else fPtMin g + nth 1 (Rndm2 d) 0 * (fPtMax g - fPtMin g).

Definition candidate_pl (g : AliGenParam) (d : Draw) : R :=
  let am := GetPMAS d in
  let ty := TanH (YParaRandom d) in
  let pt := candidate_pt g d in
  let xmt := sqrt (pt * pt + am * am) in
  xmt * ty / sqrt (1 - ty * ty).

Definition candidate_theta (g : AliGenParam) (d : Draw) : R :=
  ATan2 (candidate_pt g d) (candidate_pl g d).

Definition candidate_ptot (g : AliGenParam) (d : Draw) : R :=
  Sqrt (candidate_pt g d * candidate_pt g d + candidate_pl g d * candidate_pl g d).

(** The polar angle of a particle: the angle between its momentum and
    the z axis. *)
Definition polar_angle (particle : TParticle) : R :=
  ATan2 (Sqrt (Px particle * Px particle + Py particle * Py particle))
        (Pz particle).

Definition momentum (particle : TParticle) : R :=
  Sqrt (Px particle * Px particle + Py particle * Py particle
        + Pz particle * Pz particle).

(** *** Objects for the examples *)

(** A generator of one particle per event, as the constructor and the
    setters leave it, with the theta window [0, thetaMax]. *)
Definition example_generator (thetaMax : R) : AliGenParam :=
  mkGenParam 1 0 10 0 5 0 (2 * PI) 0 thetaMax
    [0; 0; 0] [0; 0; 0] no_smear 0 true 1 (fun _ => 1)
    dimuon [0; 0; 0; 0; 0]%Z false.

(** A draw of a massless parent at rapidity 0 with pt = 1, which decays
    to nothing that is imported. *)
Definition example_draw : Draw :=
  mkDraw 443 1 0 [0; 0] 0 1 [] [].

(** A particle that flies backwards along the beam axis. *)
Definition backward_particle : TParticle :=
  mkParticle 13 0 0 (-1) 0 0 0.

End GenParam.

(** ** AliMUONReconstructor: the members created on demand *)

Module MUONLifecycle.
Import MUONReconstructor.

(** [AliMUONDigitMaker(enableErrorLogging, useFastTrackerDecoder,
    useFastTriggerDecoder)]; [MakeTriggerDigits] is the argument of the
    last [SetMakeTriggerDigits], [None] while it has not been called. *)
Record AliMUONDigitMaker : Type := mkDigitMaker {
  enableErrorLogging : bool;
  useFastTrackerDecoder : bool;
  useFastTriggerDecoder : bool;
  MakeTriggerDigits : option bool
}.

Definition SetMakeTriggerDigits (flag : bool) (d : AliMUONDigitMaker)
  : AliMUONDigitMaker :=
  mkDigitMaker (enableErrorLogging d) (useFastTrackerDecoder d)
    (useFastTriggerDecoder d) (Some flag).

(** [AliMUONTriggerCircuit(fTransformer)]: there is one transformer. *)
Inductive AliMUONTriggerCircuit : Type := mkTriggerCircuit.

(** [AliMUONSimpleClusterServer(clusterFinder, *fTransformer)] *)
Record AliMUONSimpleClusterServer : Type := mkClusterServer {
  server_finder : AliMUONVClusterFinder
}.

(** [clusterFinder->ClassName()] *)
Definition finder_ClassName (f : AliMUONVClusterFinder) : string :=
  match f with
  | AliMUONPreClusterFinder => "AliMUONPreClusterFinder"
  | AliMUONPreClusterFinderV2 => "AliMUONPreClusterFinderV2"
  | AliMUONPreClusterFinderV3 => "AliMUONPreClusterFinderV3"
  | AliMUONClusterFinderPeakCOG _ _ => "AliMUONClusterFinderPeakCOG"
  | AliMUONClusterFinderPeakFit _ _ => "AliMUONClusterFinderPeakFit"
  | AliMUONClusterFinderCOG _ => "AliMUONClusterFinderCOG"
  | AliMUONClusterFinderSimpleFit _ => "AliMUONClusterFinderSimpleFit"
  | AliMUONClusterFinderMLEM _ _ => "AliMUONClusterFinderMLEM"
  end.

(** The reconstructor with the other members that are created on
    demand; [core] holds the members of the record above. *)
Record Members : Type := mkMembers {
  core : AliMUONReconstructor;
  fDigitMaker : option AliMUONDigitMaker;
  fTriggerCircuit : option AliMUONTriggerCircuit;
  fClusterServer : option AliMUONSimpleClusterServer;
  fTriggerStore : option nat
}.

Definition set_core (r : AliMUONReconstructor) (m : Members) : Members :=
  mkMembers r (fDigitMaker m) (fTriggerCircuit m) (fClusterServer m) (fTriggerStore m).

Definition set_fDigitMaker (d : option AliMUONDigitMaker) (m : Members) : Members :=
  mkMembers (core m) d (fTriggerCircuit m) (fClusterServer m) (fTriggerStore m).

Definition set_fTriggerCircuit (c : option AliMUONTriggerCircuit) (m : Members) : Members :=
  mkMembers (core m) (fDigitMaker m) c (fClusterServer m) (fTriggerStore m).

Definition set_fClusterServer (c : option AliMUONSimpleClusterServer) (m : Members) : Members :=
  mkMembers (core m) (fDigitMaker m) (fTriggerCircuit m) c (fTriggerStore m).

Definition set_fTriggerStore (p : option nat) (m : Members) : Members :=
  mkMembers (core m) (fDigitMaker m) (fTriggerCircuit m) (fClusterServer m) p.

(** The members as the constructor leaves them. *)
Definition new_Members (option : string) (param : AliMUONRecoParam) : Members :=
  mkMembers (new_AliMUONReconstructor option param) None None None None.

Definition CreateDigitMaker (m : Members) : Members :=
  match fDigitMaker m with
  | Some _ => m
  | None =>
      let option := GetOption (core m) in
      let enableErrorLogging := kTRUE in
      let useFastTrackerDecoder := kTRUE in
      let useFastTriggerDecoder := kTRUE in
      let useFastTrackerDecoder :=
        if TStr.Contains option "NOFASTTRKDECODER" then kFALSE
        else useFastTrackerDecoder in
      let useFastTriggerDecoder :=
        if TStr.Contains option "NOFASTTRGDECODER" then kFALSE
        else useFastTriggerDecoder in
      let useFastTrackerDecoder :=
        if TStr.Contains option "NOFASTDECODERS" then kFALSE
        else useFastTrackerDecoder in
      let useFastTriggerDecoder :=
        if TStr.Contains option "NOFASTDECODERS" then kFALSE
        else useFastTriggerDecoder in
      let maker := mkDigitMaker enableErrorLogging useFastTrackerDecoder
                     useFastTriggerDecoder None in
      let option := TStr.ToUpper option in
      let maker := if TStr.Contains option "SAVEDIGITS"
                   then SetMakeTriggerDigits kTRUE maker else maker in
      set_fDigitMaker (Some maker) m
  end.

Definition CreateTriggerCircuit (m : Members) : Members :=
  match fTriggerCircuit m with
  | Some _ => m
  | None => set_fTriggerCircuit (Some mkTriggerCircuit) m
  end.

Definition CreateClusterServer (m : Members) : list LogEntry * Members :=
  match fClusterServer m with
  | Some _ => ([], m)
  | None =>
      let (log, clusterFinder) :=
        CreateClusterFinder (GetClusteringMode (GetRecoParam (core m))) in
      match clusterFinder with
      | None => (log, m)
      | Some f =>
          (log ++ [AliInfo (String.append "Will use "
                      (String.append (finder_ClassName f) " for clusterizing"))],
           set_fClusterServer (Some (mkClusterServer f)) m)
      end
  end.

Definition HasDigitConversion (r : AliMUONReconstructor) : bool :=
  let opt := TStr.ToUpper (GetOption r) in
  if TStr.Contains opt "SAVEDIGITS" && negb (TStr.Contains opt "NOLOCALRECONSTRUCTION")
  then kTRUE else kFALSE.

(** [TriggerStore()]: the pointer returned, the members and the heap
    afterwards, and the address handed to [delete] (deleting 0x0 does
    nothing). *)
Definition TriggerStore (m : Members) (heap : Heap)
  : option nat * Members * Heap * option nat :=
  let sopt := TStr.ToUpper (GetOption (core m)) in
  if TStr.Contains sopt "TRIGGERDISABLE" then
    (None, set_fTriggerStore None m, heap, fTriggerStore m)
  else
    match fTriggerStore m with
    | None =>
        (Some (length heap), set_fTriggerStore (Some (length heap)) m,
         heap ++ ["AliMUONTriggerStoreV1"], None)
    | Some a => (Some a, m, heap, None)
    end.

(** [Calibrate(digitStore)]: on a normal end, the reconstructor and the
    calibrator whose [Calibrate] was applied to the digit store. *)
Definition Calibrate (cdb : AliCDBManager) (r : AliMUONReconstructor)
  : list LogEntry * result (AliMUONReconstructor * AliMUONDigitCalibrator) :=
  let (log, o) :=
    match fDigitCalibrator r with
    | None => CreateCalibrator cdb r
    | Some _ => ([], Returns r)
    end in
  match o with
  | Aborts msg _ => (log, Fatal msg)
  | Returns r1 =>
      match fDigitCalibrator r1 with
      | Some c => (log, Ok (r1, c))
      | None => (log, Undefined)
      end
  end.

(** [AliMUONTracker(recoParam, clusterServer, digitStore, digitMaker,
    transformer, triggerCircuit)] *)
Record AliMUONTracker : Type := mkTracker {
  tracker_recoParam : AliMUONRecoParam;
  tracker_clusterServer : option AliMUONSimpleClusterServer;
  tracker_digitStore : nat;
  tracker_digitMaker : option AliMUONDigitMaker;
  tracker_triggerCircuit : option AliMUONTriggerCircuit
}.

(** [CreateTracker()]; [combine] is what
    [GetRecoParam()->CombineClusterTrackReco()] answers. *)
Definition CreateTracker (instantiable : string -> bool) (combine : bool)
  (m : Members) (heap : Heap)
  : list LogEntry * result (AliMUONTracker * Members * Heap) :=
  let m := CreateTriggerCircuit m in
  let m := CreateDigitMaker m in
  let (log1, m) := CreateClusterServer m in
  let (log2, r) := DigitStore instantiable (core m) heap in
  (log1 ++ log2,
   let* x := r in
   let '(p, c, heap') := x in
   match p with
   | None => Undefined
   | Some a =>
       let m' := set_core c m in
       Ok (mkTracker (GetRecoParam (core m'))
             (if negb combine then None else fClusterServer m')
             a (fDigitMaker m') (fTriggerCircuit m'),
           m', heap')
   end).

End MUONLifecycle.

(** ** AliGenParam: the shape of the stack *)

Module GenParamStack.
Import GenParam.

Local Open Scope R_scope.

Definition is_primary (t : Track) : bool := String.eqb (mecha t) "Primary".

(** The number of parents among the tracks. *)
Definition count_primary (tracks : list Track) : nat :=
  length (List.filter is_primary tracks).

(** A filled row of [pch] and [kfch]: the code of the particle is among
    the selected ones and, when the children are cut, its momentum passed
    the cuts. *)
Definition row_ok (g : AliGenParam) (row : list R * Z) : Prop :=
  ChildSelected g (Z.abs (snd row)) = true
  /\ (fCutOnChild g = true -> child_in_cuts g (fst row) = true).

(** A child track of the parent numbered [iparent], tracked at [och]. *)
Definition child_of (g : AliGenParam) (iparent : Z) (och : option (list R))
  (t : Track) : Prop :=
  mecha t = "Decay"
  /\ parent t = iparent
  /\ done t = fTrackIt g
  /\ kept t = true
  /\ vpos t = och
  /\ ChildSelected g (Z.abs (pdg t)) = true
  /\ (fCutOnChild g = true -> child_in_cuts g (pmom t) = true).

(** The tracks numbered from [n] on are parents, each followed by its
    children. *)
Inductive families (g : AliGenParam) : Z -> list Track -> Prop :=
| families_nil (n : Z) : families g n []
| families_cons (n : Z) (primary : Track) (children rest : list Track)
    (och : option (list R)) :
    mecha primary = "Primary" ->
    parent primary = (-1)%Z ->
    done primary = 0%Z ->
    kept primary = false ->
    vpos primary = None ->
    (length children <= 10)%nat ->
    (fCutOnChild g = true -> children <> []) ->
    (children <> [] -> och <> None) ->
    Forall (child_of g n och) children ->
    families g (n + 1 + Z.of_nat (length children)) rest ->
    families g n (primary :: children ++ rest).

(** A draw whose decay gives a muon pair, for the examples. *)
Definition dimuon_draw : Draw :=
  mkDraw 443 1 0 [0; 0] 0 1 []
    [mkParticle 443 0 0 0 0 0 0;
     mkParticle 13 1 0 0 0 0 0;
     mkParticle (-13) (-1) 0 0 0 0 0].

End GenParamStack.

(** ** AliGenParam::Generate in the arithmetic of the code

    [Generate] declares its kinematic variables [Float_t] and calls the
    functions of [TMath], which take and return [Double_t]: an operator
    applied to two [Float_t] values works in single precision, one with a
    [Double_t] operand in double precision, each assignment to a
    [Float_t] variable rounds to single precision, and the tests of the
    two windows compare [Float_t] values. This module keeps the two types
    apart and follows the source operator by operator. The members that
    are pointers ([fPythia], [fYPara], [fPtPara]) are kept as the flag
    "not null": the constructors leave them null and [Init] sets them. *)

Module GenParamFloat.

(** The arithmetic the code runs on: the two types, the conversions
    between them, the operators at each type and the functions of
    [TMath]. [flt] is [operator<] on [Float_t]. *)
Record Arith : Type := mkArith {
  Float_t : Type;
  Double_t : Type;
  widen : Float_t -> Double_t;      (* Float_t operand of a Double_t operation *)
  narrow : Double_t -> Float_t;     (* Double_t assigned to a Float_t variable *)
  f_of_int : Z -> Float_t;          (* int operand of a Float_t operation *)
  d_of_int : Z -> Double_t;         (* int operand of a Double_t operation *)
  fadd : Float_t -> Float_t -> Float_t;
  fsub : Float_t -> Float_t -> Float_t;
  fmul : Float_t -> Float_t -> Float_t;
  dadd : Double_t -> Double_t -> Double_t;
  dsub : Double_t -> Double_t -> Double_t;
  dmul : Double_t -> Double_t -> Double_t;
  ddiv : Double_t -> Double_t -> Double_t;
  flt : Float_t -> Float_t -> bool;
  Pi : Double_t;
  Sqrt : Double_t -> Double_t;
  Cos : Double_t -> Double_t;
  Sin : Double_t -> Double_t;
  Log : Double_t -> Double_t;
  TanH : Double_t -> Double_t;
  ATan2 : Double_t -> Double_t -> Double_t
}.

Section Generic.

Variable A : Arith.

Local Abbreviation F := (Float_t A).
Local Abbreviation D := (Double_t A).

Definition fzero : F := f_of_int A 0.

(** [a > b] on [Float_t]. *)
Definition fgt (a b : F) : bool := flt A b a.

(** The data members that [Generate] reads, those of the base class
    [AliGenerator] included. *)
Record AliGenParam : Type := mkGenParam {
  fNpart : Z;
  fPMin : F; fPMax : F;
  fPtMin : F; fPtMax : F;
  fPhiMin : F; fPhiMax : F;
  fThetaMin : F; fThetaMax : F;
  fOrigin : list F; fOsigma : list F;
  fVertexSmear : GenParam.VertexSmear_t;
  fTrackIt : Z;
  fAnalog : bool;
  fParentWeight : F;
  fPtParaFunc : D -> D;
  fChildSelect : list Z;
  fCutOnChild : bool;
  fPythia : bool;                   (* fPythia is not null *)
  fYPara : bool;                    (* fYPara is not null *)
  fPtPara : bool                    (* fPtPara is not null *)
}.

Definition ChildSelected (g : AliGenParam) (ip : Z) : bool :=
  GenParam.ChildSelected_from (fChildSelect g) ip 0 5.

(** [TParticle], as far as it is read; its accessors return [Double_t]. *)
Record TParticle : Type := mkParticle {
  GetPdgCode : Z;
  Px : D; Py : D; Pz : D;
  Vx : D; Vy : D; Vz : D
}.

(** A track handed to [gAlice->SetTrack]. The parent is tracked with the
    array [origin], which [Generate] declares and never fills: its
    position is [None]. [kept] records a later [KeepTrack]. *)
Record Track : Type := mkTrack {
  done : Z;
  parent : Z;
  pdg : Z;
  pmom : list F;
  vpos : option (list F);
  polar : list F;
  tof : F;
  mecha : string;
  weight : F;
  kept : bool
}.

(** What one pass through the body of [while(1)] obtains from the
    parametrisation, from the random generator and from the decayer, in
    the order of the calls. The branching ratio and the mass are the
    [Float_t] values that the code multiplies and stores. *)
Record Draw : Type := mkDraw {
  IpParaFunc : Z;          (* fIpParaFunc() *)
  GetBraPart : F;          (* fPythia->GetBraPart(Ipart) *)
  GetPMAS : F;             (* Float_t am=fPythia->GetPMAS(fPythia->LuComp(Ipart),1) *)
  Rndm2 : list F;          (* gMC->Rndm(random,2) *)
  YParaRandom : D;         (* fYPara->GetRandom() *)
  PtParaRandom : D;        (* fPtPara->GetRandom() *)
  Rndm6 : list F;          (* gMC->Rndm(random,6), vertex smearing per track *)
  ImportParticles : list TParticle  (* the decay products, entry 0 first *)
}.

(** [base[j] + fOsigma[j]*Cos(2*random[2*j]*Pi)*Sqrt(-2*Log(random[2*j+1]))]
    for j = 0, 1, 2, stored in a [Float_t]. The product [2*random[2*j]]
    is single precision, the other operators have a [Double_t] operand. *)
Definition smear (base sigma random : list F) : list F :=
  map (fun j =>
         narrow A
           (dadd A (widen A (nth j base fzero))
              (dmul A
                 (dmul A (widen A (nth j sigma fzero))
                    (Cos A (dmul A (widen A (fmul A (f_of_int A 2)
                                                (nth (2 * j) random fzero)))
                              (Pi A))))
                 (Sqrt A (dmul A (d_of_int A (-2))
                            (Log A (widen A (nth (2 * j + 1) random fzero))))))))
      [0; 1; 2]%nat.

(** The variables of [Generate] that live across iterations. *)
Record Locals : Type := mkLocals {
  ipa : Z;
  origin0 : list F;
  fChildWeight : F;
  stack : list Track
}.

(** The test on one selected child when [fCutOnChild] is set. *)
Definition child_in_cuts (g : AliGenParam) (pc : list F) : bool :=
  let pc0 := nth 0 pc fzero in
  let pc1 := nth 1 pc fzero in
  let pc2 := nth 2 pc fzero in
  let PtChild := narrow A (Sqrt A (widen A (fadd A (fmul A pc0 pc0) (fmul A pc1 pc1)))) in
  let PChild :=
    narrow A (Sqrt A (widen A (fadd A (fmul A PtChild PtChild) (fmul A pc2 pc2)))) in
  let ThetaChild := narrow A (ATan2 A (widen A PtChild) (widen A pc2)) in
  let PhiChild := narrow A (dadd A (ATan2 A (widen A pc1) (widen A pc0)) (Pi A)) in
  (fgt PtChild (fPtMin g) && flt A PtChild (fPtMax g)) &&
  (fgt PChild (fPMin g) && flt A PChild (fPMax g)) &&
  (fgt ThetaChild (fThetaMin g) && flt A ThetaChild (fThetaMax g)) &&
  (fgt PhiChild (fPhiMin g) && flt A PhiChild (fPhiMax g)).

(** The decay particle loop, on the particles from index 1 on. [sel] holds
    the filled rows of [pch] and [kfch] (there are ten rows), [och] the
    last child origin computed. The result is [ncsel] with the rows. *)
Fixpoint select_children (g : AliGenParam) (orig : list F)
  (particles : list TParticle) (sel : list (list F * Z)) (och : option (list F))
  : result (Z * list (list F * Z) * option (list F)) :=
  match particles with
  | [] => Ok (Z.of_nat (length sel), sel, och)
  | iparticle :: rest =>
      let kf := GetPdgCode iparticle in
      if ChildSelected g (Z.abs kf) then
        let pc := [narrow A (Px iparticle); narrow A (Py iparticle);
                   narrow A (Pz iparticle)] in
        let och1 :=
          Some [narrow A (dadd A (widen A (nth 0 orig fzero))
                            (ddiv A (Vx iparticle) (d_of_int A 10)));
                narrow A (dadd A (widen A (nth 1 orig fzero))
                            (ddiv A (Vy iparticle) (d_of_int A 10)));
                narrow A (dadd A (widen A (nth 2 orig fzero))
                            (ddiv A (Vz iparticle) (d_of_int A 10)))] in
        if fCutOnChild g && negb (child_in_cuts g pc) then
          Ok ((-1)%Z, sel, och1)
        else if (10 <=? length sel)%nat then Undefined
        else select_children g orig rest (sel ++ [(pc, kf)]) och1
      else select_children g orig rest sel och
  end.

(** The two ways the body of [while(1)] is left. *)
Inductive exit : Type :=
| Continue (l : Locals)
| Break (l : Locals).

Definition locals_of (e : exit) : Locals :=
  match e with Continue l | Break l => l end.

(** The [SetTrack] of the children, each followed by [KeepTrack]. *)
Definition child_tracks (g : AliGenParam) (iparent : Z) (wgtch : F)
  (och : option (list F)) (sel : list (list F * Z)) : list Track :=
  map (fun c => mkTrack (fTrackIt g) iparent (snd c) (fst c) och
                  [fzero; fzero; fzero] fzero "Decay" wgtch true) sel.

(** One pass through the body of [while(1)]; [nt0] is the number of
    tracks on the stack before [Generate] ran (track numbers count from
    0). A call through a null [fPythia], [fYPara] or [fPtPara] is
    undefined. *)
Definition iteration (g : AliGenParam) (nt0 : Z) (d : Draw) (l : Locals)
  : result exit :=
  let Ipart := IpParaFunc d in
  if negb (fPythia g) then Undefined
  else
    let childWeight := fmul A (GetBraPart d) (fParentWeight g) in
    let l := mkLocals (ipa l) (origin0 l) childWeight (stack l) in
    let am := GetPMAS d in
    let phi := fadd A (fPhiMin g)
                 (fmul A (nth 0 (Rndm2 d) fzero) (fsub A (fPhiMax g) (fPhiMin g))) in
    if negb (fYPara g) then Undefined
    else
      let ty := narrow A (TanH A (YParaRandom d)) in
      if fAnalog g && negb (fPtPara g) then Undefined
      else
        let pt := if fAnalog g then narrow A (PtParaRandom d)
                  else fadd A (fPtMin g)
                         (fmul A (nth 1 (Rndm2 d) fzero)
                            (fsub A (fPtMax g) (fPtMin g))) in
        let ptd := widen A pt in
        let wgtp := if fAnalog g then fParentWeight g
                    else narrow A (dmul A (widen A (fParentWeight g))
                                     (fPtParaFunc g ptd)) in
        let wgtch := if fAnalog g then childWeight
                     else narrow A (dmul A (widen A childWeight)
                                      (fPtParaFunc g ptd)) in
        let xmt := narrow A (Sqrt A (widen A (fadd A (fmul A pt pt) (fmul A am am)))) in
        let pl := narrow A (ddiv A (widen A (fmul A xmt ty))
                              (Sqrt A (dsub A (d_of_int A 1)
                                         (widen A (fmul A ty ty))))) in
        let theta := narrow A (ATan2 A (widen A pt) (widen A pl)) in
        if flt A theta (fThetaMin g) || fgt theta (fThetaMax g) then Ok (Continue l)
        else
          let ptot :=
            narrow A (Sqrt A (widen A (fadd A (fmul A pt pt) (fmul A pl pl)))) in
          if flt A ptot (fPMin g) || fgt ptot (fPMax g) then Ok (Continue l)
          else
            let p := [narrow A (dmul A (widen A pt) (Cos A (widen A phi)));
                      narrow A (dmul A (widen A pt) (Sin A (widen A phi)));
                      pl] in
            let orig := match fVertexSmear g with
                        | GenParam.perTrack => smear (fOrigin g) (fOsigma g) (Rndm6 d)
                        | _ => origin0 l
                        end in
            let* r := select_children g orig (tl (ImportParticles d)) [] None in
            let '(ncsel, sel, och) := r in
            if (fCutOnChild g && (0 <? ncsel)%Z) || negb (fCutOnChild g) then
              let iparent := (nt0 + Z.of_nat (length (stack l)))%Z in
              let primary := mkTrack 0 (-1) Ipart p None [fzero; fzero; fzero] fzero
                               "Primary" wgtp false in
              Ok (Break (mkLocals (ipa l + 1) orig childWeight
                           (stack l ++ primary :: child_tracks g iparent wgtch och sel)))
            else Ok (Break (mkLocals (ipa l) orig childWeight (stack l))).

(** The two nested loops, run on a supply of draws. [inner] tells that
    control is inside [while(1)] (it came back through [continue]), where
    the test [ipa<fNpart] of the outer loop is not made. The boolean of
    the result tells whether [Generate] has returned; it is false when
    the supply ends first. *)
Fixpoint event_loop (g : AliGenParam) (nt0 : Z) (draws : list Draw)
  (inner : bool) (l : Locals) : result (bool * Locals) :=
  if inner || (ipa l <? fNpart g)%Z then
    match draws with
    | [] => Ok (false, l)
    | d :: ds =>
        let* e := iteration g nt0 d l in
        match e with
        | Continue l1 => event_loop g nt0 ds true l1
        | Break l1 => event_loop g nt0 ds false l1
        end
    end
  else Ok (true, l).

(** [Generate]: [random_event] is what [gMC->Rndm(random,6)] gives when
    the vertex is smeared per event, [childWeight0] the value of the
    member [fChildWeight] on entry. *)
Definition Generate (g : AliGenParam) (nt0 : Z) (childWeight0 : F)
  (random_event : list F) (draws : list Draw) : result (bool * Locals) :=
  let orig := match fVertexSmear g with
              | GenParam.perEvent => smear (fOrigin g) (fOsigma g) random_event
              | _ => fOrigin g
              end in
  event_loop g nt0 draws false (mkLocals 0 orig childWeight0 []).

(** *** Quantities named in the statements *)

(** The values of the variables [phi], [ty], [pt], [xmt], [pl], [theta],
    [ptot] and [p] that one pass computes from a draw, as in the body of
    the loop. *)
Definition candidate_phi (g : AliGenParam) (d : Draw) : F :=
  fadd A (fPhiMin g)
    (fmul A (nth 0 (Rndm2 d) fzero) (fsub A (fPhiMax g) (fPhiMin g))).

Definition candidate_ty (d : Draw) : F := narrow A (TanH A (YParaRandom d)).

Definition candidate_pt (g : AliGenParam) (d : Draw) : F :=
  if fAnalog g then narrow A (PtParaRandom d)
  else fadd A (fPtMin g)
         (fmul A (nth 1 (Rndm2 d) fzero) (fsub A (fPtMax g) (fPtMin g))).

Definition candidate_xmt (g : AliGenParam) (d : Draw) : F :=
  let pt := candidate_pt g d in
  let am := GetPMAS d in
  narrow A (Sqrt A (widen A (fadd A (fmul A pt pt) (fmul A am am)))).

Definition candidate_pl (g : AliGenParam) (d : Draw) : F :=
  let ty := candidate_ty d in
  narrow A (ddiv A (widen A (fmul A (candidate_xmt g d) ty))
              (Sqrt A (dsub A (d_of_int A 1) (widen A (fmul A ty ty))))).

Definition candidate_theta (g : AliGenParam) (d : Draw) : F :=
  narrow A (ATan2 A (widen A (candidate_pt g d)) (widen A (candidate_pl g d))).

Definition candidate_ptot (g : AliGenParam) (d : Draw) : F :=
  let pt := candidate_pt g d in
  let pl := candidate_pl g d in
  narrow A (Sqrt A (widen A (fadd A (fmul A pt pt) (fmul A pl pl)))).

Definition candidate_p (g : AliGenParam) (d : Draw) : list F :=
  [narrow A (dmul A (widen A (candidate_pt g d)) (Cos A (widen A (candidate_phi g d))));
   narrow A (dmul A (widen A (candidate_pt g d)) (Sin A (widen A (candidate_phi g d))));
   candidate_pl g d].

(** One of the four comparisons of the two [if ... continue] holds. *)
Definition rejected (g : AliGenParam) (d : Draw) : bool :=
  (flt A (candidate_theta g d) (fThetaMin g) || fgt (candidate_theta g d) (fThetaMax g))
  || (flt A (candidate_ptot g d) (fPMin g) || fgt (candidate_ptot g d) (fPMax g)).

(** The locals after a pass that ends in [continue]: only the member
    [fChildWeight] has been written. *)
Definition resampled (g : AliGenParam) (d : Draw) (l : Locals) : Locals :=
  mkLocals (ipa l) (origin0 l) (fmul A (GetBraPart d) (fParentWeight g)) (stack l).

(** The pointers that a pass calls through are set. *)
Definition initialised (g : AliGenParam) : Prop :=
  fPythia g = true /\ fYPara g = true /\ (fAnalog g = true -> fPtPara g = true).

(** The track is the parent sampled in one of the draws, stored with the
    momentum [p] of that pass, and none of the four comparisons held of
    that candidate. *)
Definition accepted_parent (g : AliGenParam) (draws : list Draw) (t : Track) : Prop :=
  exists d,
    In d draws
    /\ pdg t = IpParaFunc d
    /\ pmom t = candidate_p g d
    /\ rejected g d = false.

Definition parents_accepted (g : AliGenParam) (draws : list Draw) (t : Track) : Prop :=
  mecha t = "Primary" -> accepted_parent g draws t.

End Generic.

Arguments mkLocals {A} & _ _ _ _.
Arguments mkTrack {A} & _ _ _ _ _ _ _ _ _ _.
Arguments mkDraw {A} & _ _ _ _ _ _ _ _.
Arguments mkParticle {A} & _ _ _ _ _ _ _.
Arguments Continue {A} _.
Arguments Break {A} _.
Arguments locals_of {A} _.
Arguments ipa {A} _.
Arguments origin0 {A} _.
Arguments fChildWeight {A} _.
Arguments stack {A} _.
Arguments mecha {A} _.
Arguments pdg {A} _.
Arguments pmom {A} _.
Arguments vpos {A} _.
Arguments weight {A} _.
Arguments IpParaFunc {A} _.
Arguments fNpart {A} _.
Arguments fPythia {A} _.
Arguments fYPara {A} _.
Arguments fPtPara {A} _.
Arguments fAnalog {A} _.
Arguments fThetaMin {A} _.
Arguments fThetaMax {A} _.
Arguments fPMin {A} _.
Arguments fPMax {A} _.
Arguments iteration {A} _ _ _ _.
Arguments event_loop {A} _ _ _ _ _.
Arguments Generate {A} _ _ _ _ _.
Arguments candidate_pt {A} _ _.
Arguments candidate_pl {A} _ _.
Arguments candidate_theta {A} _ _.
Arguments candidate_ptot {A} _ _.
Arguments candidate_p {A} _ _.
Arguments rejected {A} _ _.
Arguments resampled {A} _ _ _.
Arguments initialised {A} _.
Arguments accepted_parent {A} _ _ _.
Arguments parents_accepted {A} _ _ _.

(** *** IEEE 754 arithmetic

    [Float_t] is binary32 and [Double_t] binary64, every operator rounds
    to nearest even at its own type, and a comparison with a NaN operand
    is false. The square root is the correctly rounded one; the other
    functions of [TMath] are those of the C library and are a parameter. *)

(** Rounding of a value to binary32 and to binary64. *)
Definition binary32 (x : spec_float) : spec_float :=
  match x with
  | S754_finite s m e => binary_round 24 128 s m e
  | _ => x
  end.

Definition binary64 (x : spec_float) : spec_float :=
  match x with
  | S754_finite s m e => binary_round 53 1024 s m e
  | _ => x
  end.

Record TMath : Type := mkTMath {
  TMath_Cos : spec_float -> spec_float;
  TMath_Sin : spec_float -> spec_float;
  TMath_Log : spec_float -> spec_float;
  TMath_TanH : spec_float -> spec_float;
  TMath_ATan2 : spec_float -> spec_float -> spec_float
}.

(** The [Double_t] nearest to Pi, 0x1.921fb54442d18p+1. *)
Definition Pi64 : spec_float := S754_finite false 7074237752028440 (-51).

Definition IEEE (m : TMath) : Arith :=
  mkArith spec_float spec_float binary64 binary32
    (fun n => binary_normalize 24 128 n 0 false)
    (fun n => binary_normalize 53 1024 n 0 false)
    (SFadd 24 128) (SFsub 24 128) (SFmul 24 128)
    (SFadd 53 1024) (SFsub 53 1024) (SFmul 53 1024) (SFdiv 53 1024)
    SFltb
    Pi64 (SFsqrt 53 1024)
    (TMath_Cos m) (TMath_Sin m) (TMath_Log m) (TMath_TanH m) (TMath_ATan2 m).

Definition IsNaN (x : spec_float) : bool :=
  match x with S754_nan => true | _ => false end.

(** [lo <= x] and [x <= hi]. *)
Definition inside (lo x hi : spec_float) : bool := SFleb lo x && SFleb x hi.

(** *** Objects for the examples *)

(** The [Float_t] and the [Double_t] of an integer. *)
Definition f32 (n : Z) : spec_float := binary_normalize 24 128 n 0 false.
Definition f64 (n : Z) : spec_float := binary_normalize 53 1024 n 0 false.

(** tanh(10) = 0.99999999587769..., in [Double_t] 0x1.ffffffdc96f35p-1. *)
Definition tanh_10 : spec_float := S754_finite false 9007199217610549 (-53).

(** Pi/2 in [Double_t], 0x1.921fb54442d18p+0. *)
Definition half_Pi64 : spec_float := S754_finite false 7074237752028440 (-52).

Definition IsZero (x : spec_float) : bool :=
  match x with S754_zero _ => true | _ => false end.

(** The values of the functions of [TMath] at the arguments that the
    examples reach: cos 0 = 1, sin 0 = 0, tanh 0 = 0, tanh 10,
    atan2(y, 0) = Pi/2 for y > 0 and atan2 of a NaN, which is NaN. At the
    other arguments the table holds 0, which is also the value of
    atan2(y, +infinity) for a finite y > 0. *)
Definition table : TMath :=
  mkTMath
    (fun x => if IsZero x then f64 1 else S754_zero false)
    (fun x => if IsZero x then x else S754_zero false)
    (fun x => S754_zero false)
    (fun x => if IsZero x then x
              else if SFeqb x (f64 10) then tanh_10 else S754_zero false)
    (fun y x => if IsNaN y || IsNaN x then S754_nan
                else if SFltb (S754_zero false) y && IsZero x then half_Pi64
                else S754_zero false).

(** A generator of one particle per event after [Init], with the momentum
    window [0, 10], the theta window [0, thetaMax], no vertex smearing
    and no cut on the children. *)
Definition example_generator (m : TMath) (thetaMax : spec_float)
  : AliGenParam (IEEE m) :=
  mkGenParam (IEEE m) 1 (f32 0) (f32 10) (f32 0) (f32 5)
    (f32 0) (binary32 (SFmul 53 1024 (f64 2) Pi64)) (f32 0) thetaMax
    [f32 0; f32 0; f32 0] [f32 0; f32 0; f32 0] GenParam.no_smear 0 true
    (f32 1) (fun _ => f64 1) [13; 0; 0; 0; 0] false true true true.

(** The same generator before [Init]: the three pointers are null. *)
Definition generator_without_Init (m : TMath) : AliGenParam (IEEE m) :=
  mkGenParam (IEEE m) 1 (f32 0) (f32 10) (f32 0) (f32 5)
    (f32 0) (binary32 (SFmul 53 1024 (f64 2) Pi64)) (f32 0) (f32 2)
    [f32 0; f32 0; f32 0] [f32 0; f32 0; f32 0] GenParam.no_smear 0 true
    (f32 1) (fun _ => f64 1) [0; 0; 0; 0; 0] false false false false.

(** A draw of a massless parent at rapidity 0 with pt = 1, which decays
    to nothing that is imported: pl = 0, theta is the [Float_t] of Pi/2
    and ptot = 1. *)
Definition draw_across (m : TMath) : Draw (IEEE m) :=
  mkDraw 443 (f32 1) (f32 0) [f32 0; f32 0] (f64 0) (f64 1) [] [].

(** A draw of a massless parent at rapidity 10 with pt = 0. *)
Definition draw_along (m : TMath) : Draw (IEEE m) :=
  mkDraw 443 (f32 1) (f32 0) [f32 0; f32 0] (f64 10) (f64 0) [] [].

(** The generator with the momentum window [0, 3] and the theta window
    [0, 2]. *)
Definition generator_to_3 (m : TMath) : AliGenParam (IEEE m) :=
  mkGenParam (IEEE m) 1 (f32 0) (f32 3) (f32 0) (f32 5)
    (f32 0) (binary32 (SFmul 53 1024 (f64 2) Pi64)) (f32 0) (f32 2)
    [f32 0; f32 0; f32 0] [f32 0; f32 0; f32 0] GenParam.no_smear 0 true
    (f32 1) (fun _ => f64 1) [13; 0; 0; 0; 0] false true true true.

(** The [Double_t] nearest to 3.0000001, 0x1.800000d6bf94dp+1: it is
    above 3, and its [Float_t] is 3. *)
Definition above_3 : spec_float := S754_finite false 6755399666235725 (-51).

(** A draw of a massless parent at rapidity 0 with pt = 3.0000001. *)
Definition draw_above_3 (m : TMath) : Draw (IEEE m) :=
  mkDraw 443 (f32 1) (f32 0) [f32 0; f32 0] (f64 0) above_3 [] [].

(** A draw of a parent of mass 3 at rapidity 10 with pt = 1. *)
Definition draw_heavy_along (m : TMath) : Draw (IEEE m) :=
  mkDraw 443 (f32 1) (f32 3) [f32 0; f32 0] (f64 10) (f64 1) [] [].

(** The locals on entry to the loops of the examples. *)
Definition locals0 (m : TMath) : Locals (IEEE m) :=
  mkLocals 0 [f32 0; f32 0; f32 0] (f32 0) [].

End GenParamFloat.

(** * Properties *)

(** ** Strings *)

Module TStrFacts.
Import TStr.

Lemma prefix_iff (p s : string) :
  starts_with s p = true <-> exists post, s = String.append p post.
Proof.
  revert s. induction p as [|a p IH]; intros s; simpl.
  - split; [intros _; exists s; reflexivity | intros _; reflexivity].
  - destruct s as [|b s].
    + split; [discriminate | intros [post H]; discriminate].
    + rewrite andb_true_iff, Ascii.eqb_eq, IH. split.
      * intros [-> [post H]]. exists post. now rewrite H.
      * intros [post H]. inversion H. split; [reflexivity|]. now exists post.
Qed.

(** [strstr] decides the occurrence of the needle in the haystack. *)
Lemma strstr_iff (s pat : string) :
  strstr s pat = true <-> Substring pat s.
Proof.
  unfold Substring. induction s as [|a s IH]; simpl.
  - rewrite orb_false_r, prefix_iff. split.
    + intros [post H]. exists EmptyString, post. exact H.
    + intros [pre [post H]]. destruct pre; simpl in H; [|discriminate].
      exists post. exact H.
  - rewrite orb_true_iff, prefix_iff, IH. split.
    + intros [[post H]|[pre [post H]]].
      * exists EmptyString, post. exact H.
      * exists (String a pre), post. simpl. now rewrite H.
    + intros [pre [post H]]. destruct pre as [|b pre]; simpl in H.
      * left. exists post. exact H.
      * right. inversion H. exists pre, post. reflexivity.
Qed.

Lemma strstr_false_iff (s pat : string) :
  strstr s pat = false <-> ~ Substring pat s.
Proof.
  rewrite <- strstr_iff. destruct (strstr s pat); split; congruence.
Qed.

Lemma append_assoc (a b c : string) :
  String.append (String.append a b) c = String.append a (String.append b c).
Proof. induction a as [|x a IH]; simpl; [reflexivity | now rewrite IH]. Qed.

Lemma append_nil_r (a : string) : String.append a EmptyString = a.
Proof. induction a as [|x a IH]; simpl; [reflexivity | now rewrite IH]. Qed.

(** Tokens are cut at every delimiter: the tokens of [a], a delimiter
    and [b] are those of [a] followed by those of [b]. *)
Lemma Tokenize_from_delim (delim : string) (c : ascii) (a b cur : string) :
  is_delim delim c = true ->
  Tokenize_from delim cur (String.append a (String c b)) =
  Tokenize_from delim cur a ++ Tokenize_from delim EmptyString b.
Proof.
  intros Hc. revert cur. induction a as [|x a IH]; intros cur; simpl.
  - rewrite Hc. destruct cur; reflexivity.
  - destruct (is_delim delim x).
    + destruct cur; rewrite IH; reflexivity.
    + apply IH.
Qed.

Lemma Tokenize_delim (delim : string) (c : ascii) (a b : string) :
  is_delim delim c = true ->
  Tokenize delim (String.append a (String c b)) =
  Tokenize delim a ++ Tokenize delim b.
Proof. apply Tokenize_from_delim. Qed.

(** A string without delimiters is one token, unless it is empty. *)
Lemma Tokenize_from_no_delim (delim cur t : string) :
  no_delim delim t = true ->
  Tokenize_from delim cur t =
  match String.append cur t with EmptyString => [] | w => [w] end.
Proof.
  revert cur. induction t as [|x t IH]; intros cur H; simpl in *.
  - rewrite append_nil_r. destruct cur; reflexivity.
  - apply andb_true_iff in H as [Hx Ht]. apply negb_true_iff in Hx.
    rewrite Hx, IH by exact Ht. rewrite append_assoc. reflexivity.
Qed.

Lemma Tokenize_no_delim (delim t : string) :
  no_delim delim t = true ->
  Tokenize delim t = match t with EmptyString => [] | w => [w] end.
Proof. intros H. unfold Tokenize. rewrite Tokenize_from_no_delim by exact H. destruct t; reflexivity. Qed.

End TStrFacts.

(** ** AliNanoAODStorage *)

Module NanoAODStorageFacts.
Import TStr TStrFacts NanoAODStorage.

Example tokens_of_header :
  Tokenize "," ",pt,, eta ,FiredTriggerClasses," = ["pt"; " eta "; "FiredTriggerClasses"].
Proof. reflexivity. Qed.

Example strip_both : Strip " " "  Fired Trigger " = "Fired Trigger".
Proof. reflexivity. Qed.

Example header_count :
  GetStringParameters "pt, Trigger ,  ,eta,,FiredTriggerClasses,a" = 4.
Proof. reflexivity. Qed.

Lemma count_loop (toks : list string) (acc : Z) :
  fold_left (fun stringVars token =>
               if counted token then stringVars + 1 else stringVars) toks acc
  = acc + Z.of_nat (length (List.filter counted toks)).
Proof.
  revert acc. induction toks as [|t toks IH]; intros acc; simpl.
  - lia.
  - rewrite IH. destruct (counted t); simpl length; lia.
Qed.

Lemma GetStringParameters_count (h : string) :
  GetStringParameters h =
  Z.of_nat (length (List.filter counted (Tokenize "," h))).
Proof. unfold GetStringParameters. rewrite count_loop. lia. Qed.

Lemma counted_iff (t : string) :
  counted t = true <-> Substring (Strip " " t) stringVariables.
Proof. apply strstr_iff. Qed.

Lemma GetStringParameters_comma (a b : string) :
  GetStringParameters (String.append a (String "," b)) =
  GetStringParameters a + GetStringParameters b.
Proof.
  rewrite !GetStringParameters_count, Tokenize_delim by reflexivity.
  rewrite List.filter_app, length_app. lia.
Qed.

(** The counter cannot leave the range of [Int_t] values that string
    lengths have. *)
Lemma Tokenize_from_length (delim cur s : string) :
  (length (Tokenize_from delim cur s) <= S (String.length s))%nat.
Proof.
  revert cur. induction s as [|x s IH]; intros cur; simpl.
  - destruct cur; simpl; lia.
  - destruct (is_delim delim x).
    + destruct cur; simpl; specialize (IH EmptyString); lia.
    + specialize (IH (String.append cur (String x EmptyString))). lia.
Qed.

Lemma GetStringParameters_bounds (h : string) :
  0 <= GetStringParameters h <= Z.of_nat (String.length h) + 1.
Proof.
  rewrite GetStringParameters_count.
  pose proof (List.filter_length_le counted (Tokenize "," h)) as H1.
  pose proof (Tokenize_from_length "," EmptyString h) as H2.
  unfold Tokenize in *. lia.
Qed.

(** C10. [GetStringParameters] returns the number of tokens of the header
    (as cut by [Tokenize(",")]) whose content, once the spaces around it
    are stripped, occurs in "FiredTriggerClasses": "Trigger" is counted and
    so is a token of spaces only, which strips to the empty string. The
    result is the same for two headers whose counted tokens are the same
    up to order; in particular it does not change when the two parts
    around a comma are exchanged, nor when a token that is not counted is
    added. *)
Theorem GetStringParameters_counts_substrings (h h' a b t : string) :
  GetStringParameters h =
    Z.of_nat (length (List.filter counted (Tokenize "," h)))
  /\ (forall tok, counted tok = true <->
                  Substring (Strip " " tok) "FiredTriggerClasses")
  /\ counted "Trigger" = true
  /\ counted "  " = true
  /\ counted "FiredTriggerClasses" = true
  /\ (Permutation (List.filter counted (Tokenize "," h))
                  (List.filter counted (Tokenize "," h')) ->
      GetStringParameters h = GetStringParameters h')
  /\ GetStringParameters (String.append a (String "," b)) =
     GetStringParameters (String.append b (String "," a))
  /\ (no_delim "," t = true -> counted t = false ->
      GetStringParameters (String.append a (String "," t)) =
      GetStringParameters a).
Proof.
  split; [apply GetStringParameters_count|].
  split; [apply counted_iff|].
  do 3 (split; [reflexivity|]).
  split; [|split].
  - intros HP. rewrite !GetStringParameters_count.
    now rewrite (Permutation_length HP).
  - rewrite !GetStringParameters_comma. lia.
  - intros Ht Hc. rewrite GetStringParameters_comma.
    rewrite (GetStringParameters_count t), Tokenize_no_delim by exact Ht.
    destruct t; simpl; [lia|].
    unfold List.filter. rewrite Hc. simpl. lia.
Qed.

Lemma GetStringParameters_counts_substrings_witness :
  GetStringParameters "pt,Trigger, ,eta" = GetStringParameters " ,phi,Trigger"
  /\ GetStringParameters "pt,Trigger,eta" = GetStringParameters "pt,Trigger".
Proof.
  split.
  - apply (GetStringParameters_counts_substrings
             "pt,Trigger, ,eta" " ,phi,Trigger" "" "" "").
    apply perm_swap.
  - apply (GetStringParameters_counts_substrings "" "" "pt,Trigger" "" "eta");
      reflexivity.
Defined.

(** *** Allocation *)

Lemma repeat_length_Z {A : Type} (x : A) (n : Z) :
  0 <= n -> Z.of_nat (length (repeat x (Z.to_nat n))) = n.
Proof. intros H. rewrite repeat_length. lia. Qed.

(** Allocation keeps the class invariant. *)
Lemma AllocateInternalStorage_consistent (size sizeString : Z)
  (s s' : AliNanoAODStorage) (log : list LogEntry) :
  consistent s ->
  AllocateInternalStorage size sizeString s = (log, Ok s') ->
  consistent s'.
Proof.
  unfold AllocateInternalStorage, clear_resize, consistent.
  intros [H1 H2].
  destruct (size =? 0) eqn:E0; [intros [= _ <-]; now split|].
  destruct (size <? 0) eqn:E1; simpl; [discriminate|].
  destruct (0 <? sizeString) eqn:E2; simpl.
  - destruct (sizeString <? 0) eqn:E3; simpl; [discriminate|].
    intros [= _ <-]; simpl. split; symmetry; apply repeat_length_Z; lia.
  - intros [= _ <-]; simpl. split; [symmetry; apply repeat_length_Z; lia | exact H2].
Qed.

Lemma Allocate_zero (sizeString : Z) (s : AliNanoAODStorage) :
  AllocateInternalStorage 0 sizeString s = ([AliError "Zero size"], Ok s).
Proof. reflexivity. Qed.

Lemma Allocate_numeric (size sizeString : Z) (s : AliNanoAODStorage) :
  0 < size -> sizeString <= 0 ->
  AllocateInternalStorage size sizeString s =
  ([], Ok (mkStorage size (repeat 0%float (Z.to_nat size))
             (fNVarsString s) (fVarsString s))).
Proof.
  intros H1 H2. unfold AllocateInternalStorage, clear_resize.
  destruct (Z.eqb_spec size 0); [lia|].
  destruct (Z.ltb_spec size 0); [lia|].
  destruct (Z.ltb_spec 0 sizeString); [lia|]. reflexivity.
Qed.

Lemma Allocate_numeric_and_strings (size sizeString : Z) (s : AliNanoAODStorage) :
  0 < size -> 0 < sizeString ->
  AllocateInternalStorage size sizeString s =
  ([], Ok (mkStorage size (repeat 0%float (Z.to_nat size))
             sizeString (repeat EmptyString (Z.to_nat sizeString)))).
Proof.
  intros H1 H2. unfold AllocateInternalStorage, clear_resize.
  destruct (Z.eqb_spec size 0); [lia|].
  destruct (Z.ltb_spec size 0); [lia|].
  destruct (Z.ltb_spec 0 sizeString); [|lia].
  destruct (Z.ltb_spec sizeString 0); [lia|]. reflexivity.
Qed.

(** C9. [AllocateInternalStorage(size, sizeString)] with size 0 logs the
    error "Zero size" and leaves the four data members as they were; with
    size > 0 and sizeString <= 0 the numeric storage becomes [size]
    entries equal to 0 and the string storage keeps its size and content;
    with size > 0 and sizeString > 0 the string storage becomes
    [sizeString] empty strings as well. *)
Theorem AllocateInternalStorage_cases (size sizeString : Z) (s : AliNanoAODStorage) :
  (size = 0 ->
   AllocateInternalStorage size sizeString s = ([AliError "Zero size"], Ok s))
  /\ (0 < size -> sizeString <= 0 ->
      AllocateInternalStorage size sizeString s =
      ([], Ok (mkStorage size (repeat 0%float (Z.to_nat size))
                 (fNVarsString s) (fVarsString s))))
  /\ (0 < size -> 0 < sizeString ->
      AllocateInternalStorage size sizeString s =
      ([], Ok (mkStorage size (repeat 0%float (Z.to_nat size))
                 sizeString (repeat EmptyString (Z.to_nat sizeString))))).
Proof.
  split; [|split].
  - intros ->. apply Allocate_zero.
  - apply Allocate_numeric.
  - apply Allocate_numeric_and_strings.
Qed.

Lemma AllocateInternalStorage_cases_witness :
  AllocateInternalStorage 0 3 two_vars = ([AliError "Zero size"], Ok two_vars)
  /\ AllocateInternalStorage 3 0 two_vars =
     ([], Ok (mkStorage 3 [0%float; 0%float; 0%float] 1 ["CINT7-B"]))
  /\ AllocateInternalStorage 1 2 two_vars =
     ([], Ok (mkStorage 1 [0%float] 2 [""; ""])).
Proof.
  split; [|split].
  - apply (AllocateInternalStorage_cases 0 3 two_vars). reflexivity.
  - apply (AllocateInternalStorage_cases 3 0 two_vars); lia.
  - apply (AllocateInternalStorage_cases 1 2 two_vars); lia.
Defined.

(** A negative size makes [resize] throw. *)
Example AllocateInternalStorage_negative :
  AllocateInternalStorage (-1) 0 two_vars = ([], Throw "std::length_error").
Proof. reflexivity. Qed.

(** *** Accessors *)

Lemma in_range_false (index n : Z) :
  ~ (0 <= index < n) -> in_range index n = false.
Proof.
  unfold in_range. intros H.
  destruct (Z.leb_spec 0 index), (Z.ltb_spec index n); simpl; try reflexivity; lia.
Qed.

Lemma in_range_true (index n : Z) :
  0 <= index < n -> in_range index n = true.
Proof.
  unfold in_range. intros H.
  destruct (Z.leb_spec 0 index), (Z.ltb_spec index n); simpl; try reflexivity; lia.
Qed.

(** C7. Reading or setting a numeric variable at an index outside
    [0, fNVars), or a string variable at an index outside
    [0, fNVarsString), ends in [Complain]: the fatal error whose message
    carries the index; nothing is returned and nothing is written. *)
Theorem accessors_complain_out_of_range
  (s : AliNanoAODStorage) (index : Z) (var : float) (svar : string) :
  let msg := String.append "Variable "
               (String.append (Form_d index) " not included in this special aod") in
  (~ (0 <= index < fNVars s) ->
   GetVar s index = Fatal msg /\ SetVar index var s = Fatal msg)
  /\ (~ (0 <= index < fNVarsString s) ->
      GetVarString s index = Fatal msg /\ SetVarString index svar s = Fatal msg).
Proof.
  intros msg. unfold GetVar, SetVar, GetVarString, SetVarString.
  split; intros H; rewrite (in_range_false _ _ H); split; reflexivity.
Qed.

Lemma accessors_complain_out_of_range_witness :
  (GetVar two_vars 7 = Fatal "Variable 7 not included in this special aod"
   /\ SetVar 7 3%float two_vars = Fatal "Variable 7 not included in this special aod")
  /\ (GetVarString two_vars (-1) = Fatal "Variable -1 not included in this special aod"
      /\ SetVarString (-1) "x" two_vars =
         Fatal "Variable -1 not included in this special aod").
Proof.
  split.
  - apply (accessors_complain_out_of_range two_vars 7 3%float ""). simpl. lia.
  - apply (accessors_complain_out_of_range two_vars (-1) 0%float "x"). simpl. lia.
Defined.

(** Inside the range the accessors read and write the slot. *)
Example accessors_in_range :
  GetVar two_vars 1 = Ok 2%float
  /\ SetVar 0 5%float two_vars = Ok (mkStorage 2 [5%float; 2%float] 1 ["CINT7-B"])
  /\ GetVarString two_vars 0 = Ok "CINT7-B".
Proof. repeat split. Qed.

(** *** Assignment *)

(** Assignment between two objects copies the variables. *)
Example assign_distinct :
  assign 1%nat 2%nat (<[2%nat := two_vars]> (<[1%nat := mkStorage 0 [] 0 []]> ∅)) =
  ([], Ok (<[1%nat := two_vars]> (<[2%nat := two_vars]> (<[1%nat := mkStorage 0 [] 0 []]> ∅)))).
Proof. vm_compute. reflexivity. Qed.

(** C8. Self-assignment of a storage with variables ([fNVars] not 0, and
    the sizes those of the vectors) is not the identity: the storage is
    reallocated before the test [this != &sto] and the copy is then
    skipped, so that afterwards the sizes are the same, every numeric
    variable reads 0 and every string variable reads the empty string,
    whatever they held. *)
Theorem self_assignment_clears
  (h : gmap nat AliNanoAODStorage) (a : nat) (s : AliNanoAODStorage) :
  h !! a = Some s -> consistent s -> fNVars s <> 0 ->
  exists s',
    assign a a h = ([], Ok (<[a := s']> h))
    /\ fNVars s' = fNVars s /\ fNVarsString s' = fNVarsString s
    /\ fVars s' = repeat 0%float (Z.to_nat (fNVars s))
    /\ fVarsString s' = repeat EmptyString (Z.to_nat (fNVarsString s))
    /\ (forall i, 0 <= i < fNVars s -> GetVar s' i = Ok 0%float)
    /\ (forall i, 0 <= i < fNVarsString s -> GetVarString s' i = Ok EmptyString).
Proof.
  intros Hs [Hc1 Hc2] Hn.
  assert (Hpos : 0 < fNVars s) by lia.
  unfold assign. rewrite Hs.
  destruct (Z_lt_le_dec 0 (fNVarsString s)) as [Hstr|Hstr].
  - rewrite (Allocate_numeric_and_strings _ _ s Hpos Hstr). simpl.
    destruct (decide (a <> a)) as [Hne|_]; [contradiction|].
    eexists. split; [reflexivity|]. simpl.
    repeat split.
    + intros i Hi. unfold GetVar; simpl. rewrite in_range_true by exact Hi.
      now rewrite nth_repeat.
    + intros i Hi. unfold GetVarString; simpl. rewrite in_range_true by exact Hi.
      now rewrite nth_repeat.
  - rewrite (Allocate_numeric _ _ s Hpos Hstr). simpl.
    destruct (decide (a <> a)) as [Hne|_]; [contradiction|].
    eexists. split; [reflexivity|]. simpl.
    repeat split.
    + destruct (fVarsString s); [|simpl in Hc2; lia].
      rewrite Hc2. reflexivity.
    + intros i Hi. unfold GetVar; simpl. rewrite in_range_true by exact Hi.
      now rewrite nth_repeat.
    + intros i Hi. lia.
Qed.

Lemma self_assignment_clears_witness :
  exists s',
    assign 1%nat 1%nat (<[1%nat := two_vars]> ∅) = ([], Ok (<[1%nat := s']> (<[1%nat := two_vars]> ∅)))
    /\ fNVars s' = 2 /\ fNVarsString s' = 1
    /\ fVars s' = [0%float; 0%float]
    /\ fVarsString s' = [EmptyString]
    /\ (forall i, 0 <= i < 2 -> GetVar s' i = Ok 0%float)
    /\ (forall i, 0 <= i < 1 -> GetVarString s' i = Ok EmptyString).
Proof.
  apply (self_assignment_clears (<[1%nat := two_vars]> ∅) 1%nat two_vars).
  - reflexivity.
  - split; reflexivity.
  - simpl. lia.
Defined.

(** The values held before are lost. *)
Example self_assignment_not_identity :
  assign 1%nat 1%nat (<[1%nat := two_vars]> ∅) =
  ([], Ok (<[1%nat := mkStorage 2 [0%float; 0%float] 1 [""]]> ∅)).
Proof. vm_compute. reflexivity. Qed.

End NanoAODStorageFacts.

(** ** AliMUONReconstructor *)

Module MUONReconstructorFacts.
Import TStr TStrFacts MUONReconstructor.

Example cluster_finder_mlemv2 :
  CreateClusterFinder "mlemv2" =
  ([], Some (AliMUONClusterFinderMLEM false AliMUONPreClusterFinderV2)).
Proof. reflexivity. Qed.

Example cluster_finder_first_match :
  CreateClusterFinder "cog+precluster" = ([], Some AliMUONPreClusterFinder).
Proof. reflexivity. Qed.

Example cluster_finder_unknown :
  CreateClusterFinder "NoClustering" =
  ([AliError (no_such_mode "NOCLUSTERING")], None).
Proof. reflexivity. Qed.

Lemma CreateClusterFinder_refines (s : string) :
  CreateClusterFinder s = CreateClusterFinder_spec s.
Proof.
  unfold CreateClusterFinder, CreateClusterFinder_spec, clustering_modes.
  cbn [List.find fst snd].
  repeat (match goal with
          | |- context [if strstr ?a ?b then _ else _] =>
              destruct (strstr a b); [reflexivity|]
          end).
  reflexivity.
Qed.

(** C1. [CreateClusterFinder] selects the clusterizer by the first
    recognised mode substring, in the order of the table, that occurs in
    the upper-cased string; it returns a clusterizer exactly when one of
    them occurs, and otherwise logs the error and returns 0x0. *)
Theorem CreateClusterFinder_by_first_match (s : string) :
  let opt := ToUpper s in
  CreateClusterFinder s =
    match List.find (fun m => strstr opt (fst m)) clustering_modes with
    | Some m => ([], Some (snd m))
    | None => ([AliError (no_such_mode opt)], None)
    end
  /\ map fst clustering_modes =
     ["PRECLUSTERV2"; "PRECLUSTERV3"; "PRECLUSTER"; "PEAKCOG"; "PEAKFIT"; "COG";
      "SIMPLEFITV3"; "SIMPLEFIT"; "MLEM:DRAW"; "MLEMV3"; "MLEMV2"; "MLEM"]
  /\ (snd (CreateClusterFinder s) <> None <->
      exists mode, In mode (map fst clustering_modes) /\ Substring mode opt)
  /\ (snd (CreateClusterFinder s) = None <->
      CreateClusterFinder s = ([AliError (no_such_mode opt)], None)).
Proof.
  intros opt. rewrite CreateClusterFinder_refines.
  unfold CreateClusterFinder_spec. fold opt.
  split; [reflexivity|]. split; [reflexivity|].
  destruct (List.find _ clustering_modes) as [m|] eqn:Hf; cbn [snd].
  - apply List.find_some in Hf as [Hin Hm]. split; split.
    + intros _. exists (fst m).
      split; [exact (in_map fst _ _ Hin) | now apply strstr_iff].
    + discriminate.
    + discriminate.
    + discriminate.
  - split; split.
    + congruence.
    + intros [mode [Hin Hsub]]. apply in_map_iff in Hin as [m [<- Hin]].
      apply strstr_iff in Hsub.
      pose proof (List.find_none _ _ Hf m Hin) as Hn. simpl in Hn. congruence.
    + reflexivity.
    + reflexivity.
Qed.

(** *** The digit store *)

Example digit_store_default :
  DigitStore all_classes (new_AliMUONReconstructor "SAVEDIGITS" default_param) [] =
  ([AliInfo "Options=SAVEDIGITS";
    AliInfo "Will use AliMUONDigitStoreV2R to store digits during reconstruction"],
   Ok (Some 0%nat,
       set_fDigitStore (Some 0%nat) (new_AliMUONReconstructor "SAVEDIGITS" default_param),
       ["AliMUONDigitStoreV2R"])).
Proof. reflexivity. Qed.

Example digit_store_v2s :
  DigitStore_class all_classes
    (new_AliMUONReconstructor "digitstorev2s" default_param) [] =
  Some "AliMUONDigitStoreV2S".
Proof. reflexivity. Qed.

Lemma last_of_heap (heap : Heap) (classname : string) :
  ClassName (heap ++ [classname]) (length heap) = Some classname.
Proof.
  unfold ClassName. rewrite lookup_app_r by lia.
  now rewrite Nat.sub_diag.
Qed.

(** With the store class found by [Create], a first call creates one
    store of that class, keeps it and returns it. *)
Lemma DigitStore_first_call (instantiable : string -> bool)
  (r : AliMUONReconstructor) (heap : Heap) :
  instantiable (DigitStore_class_spec (ToUpper (GetOption r))) = true ->
  fDigitStore r = None ->
  let cls := DigitStore_class_spec (ToUpper (GetOption r)) in
  DigitStore instantiable r heap =
  ([AliInfo (String.append "Options=" (ToUpper (GetOption r)));
    AliInfo (String.append "Will use "
               (String.append cls " to store digits during reconstruction"))],
   Ok (Some (length heap), set_fDigitStore (Some (length heap)) r, heap ++ [cls])).
Proof.
  intros Hi Hnone cls. unfold DigitStore. rewrite Hnone.
  unfold DigitStore_class_spec in *. fold cls in Hi.
  destruct (Contains (ToUpper (GetOption r)) "DIGITSTOREV1");
    [|destruct (Contains (ToUpper (GetOption r)) "DIGITSTOREV2R");
      [|destruct (Contains (ToUpper (GetOption r)) "DIGITSTOREV2S")]];
    subst cls; unfold Create; rewrite ?Hi; cbn iota beta;
    rewrite ?Hi; cbn iota beta; rewrite last_of_heap; reflexivity.
Qed.

(** Once a store is kept, a call returns it and does nothing else. *)
Lemma DigitStore_later_call (instantiable : string -> bool)
  (r : AliMUONReconstructor) (heap : Heap) (a : nat) :
  fDigitStore r = Some a ->
  DigitStore instantiable r heap = ([], Ok (Some a, r, heap)).
Proof. intros H. unfold DigitStore. now rewrite H. Qed.

(** C2, as the code has it. When the three store classes can be
    instantiated, the first call of [DigitStore()] returns a new store,
    never 0x0, of the class AliMUONDigitStoreV1 when the upper-cased
    option contains DIGITSTOREV1; otherwise of the class
    AliMUONDigitStoreV2R when it contains DIGITSTOREV2R; otherwise of the
    class AliMUONDigitStoreV2S when it contains DIGITSTOREV2S; and of the
    class AliMUONDigitStoreV2R when it contains none of the three. The
    store is kept: a later call, whatever the option has become, returns
    the same store and creates nothing. *)
Theorem DigitStore_selected_once (instantiable : string -> bool)
  (r : AliMUONReconstructor) (heap : Heap) :
  instantiable "AliMUONDigitStoreV1" = true ->
  instantiable "AliMUONDigitStoreV2R" = true ->
  instantiable "AliMUONDigitStoreV2S" = true ->
  fDigitStore r = None ->
  let sopt := ToUpper (GetOption r) in
  exists log a r' heap' cls,
    DigitStore instantiable r heap = (log, Ok (Some a, r', heap'))
    /\ fDigitStore r' = Some a
    /\ heap' = heap ++ [cls]
    /\ ClassName heap' a = Some cls
    /\ (Substring "DIGITSTOREV1" sopt -> cls = "AliMUONDigitStoreV1")
    /\ (~ Substring "DIGITSTOREV1" sopt -> Substring "DIGITSTOREV2R" sopt ->
        cls = "AliMUONDigitStoreV2R")
    /\ (~ Substring "DIGITSTOREV1" sopt -> ~ Substring "DIGITSTOREV2R" sopt ->
        Substring "DIGITSTOREV2S" sopt -> cls = "AliMUONDigitStoreV2S")
    /\ (~ Substring "DIGITSTOREV1" sopt -> ~ Substring "DIGITSTOREV2R" sopt ->
        ~ Substring "DIGITSTOREV2S" sopt -> cls = "AliMUONDigitStoreV2R")
    /\ (forall option' : string,
          DigitStore instantiable (SetOption option' r') heap' =
          ([], Ok (Some a, SetOption option' r', heap'))).
Proof.
  intros H1 H2 H3 Hnone sopt.
  assert (Hi : instantiable (DigitStore_class_spec sopt) = true).
  { unfold DigitStore_class_spec.
    repeat (match goal with
            | |- context [if Contains ?x ?y then _ else _] => destruct (Contains x y)
            end); assumption. }
  eexists _, (length heap), (set_fDigitStore (Some (length heap)) r),
    (heap ++ [DigitStore_class_spec sopt]), (DigitStore_class_spec sopt).
  split; [apply (DigitStore_first_call instantiable r heap Hi Hnone)|].
  split; [reflexivity|]. split; [reflexivity|].
  split; [apply last_of_heap|].
  unfold DigitStore_class_spec, Contains.
  split; [|split; [|split; [|split]]].
  - intros S1. apply strstr_iff in S1. now rewrite S1.
  - intros S1 S2. apply strstr_false_iff in S1. apply strstr_iff in S2.
    now rewrite S1, S2.
  - intros S1 S2 S3. apply strstr_false_iff in S1, S2. apply strstr_iff in S3.
    now rewrite S1, S2, S3.
  - intros S1 S2 S3. apply strstr_false_iff in S1, S2, S3.
    now rewrite S1, S2, S3.
  - intros option'. apply DigitStore_later_call. reflexivity.
Qed.

Lemma DigitStore_selected_once_witness :
  exists log a r' heap' cls,
    DigitStore all_classes
      (new_AliMUONReconstructor "SaveDigits DigitStoreV2S" default_param) [] =
      (log, Ok (Some a, r', heap'))
    /\ fDigitStore r' = Some a
    /\ heap' = [] ++ [cls]
    /\ ClassName heap' a = Some cls
    /\ (Substring "DIGITSTOREV1" "SAVEDIGITS DIGITSTOREV2S" ->
        cls = "AliMUONDigitStoreV1")
    /\ (~ Substring "DIGITSTOREV1" "SAVEDIGITS DIGITSTOREV2S" ->
        Substring "DIGITSTOREV2R" "SAVEDIGITS DIGITSTOREV2S" ->
        cls = "AliMUONDigitStoreV2R")
    /\ (~ Substring "DIGITSTOREV1" "SAVEDIGITS DIGITSTOREV2S" ->
        ~ Substring "DIGITSTOREV2R" "SAVEDIGITS DIGITSTOREV2S" ->
        Substring "DIGITSTOREV2S" "SAVEDIGITS DIGITSTOREV2S" ->
        cls = "AliMUONDigitStoreV2S")
    /\ (~ Substring "DIGITSTOREV1" "SAVEDIGITS DIGITSTOREV2S" ->
        ~ Substring "DIGITSTOREV2R" "SAVEDIGITS DIGITSTOREV2S" ->
        ~ Substring "DIGITSTOREV2S" "SAVEDIGITS DIGITSTOREV2S" ->
        cls = "AliMUONDigitStoreV2R")
    /\ (forall option' : string,
          DigitStore all_classes (SetOption option' r') heap' =
          ([], Ok (Some a, SetOption option' r', heap'))).
Proof.
  apply (DigitStore_selected_once all_classes
           (new_AliMUONReconstructor "SaveDigits DigitStoreV2S" default_param) []);
    reflexivity.
Defined.

(** The option may carry two of the flags; DIGITSTOREV2R is then present
    and the store is not an AliMUONDigitStoreV2R. *)
Lemma DigitStore_V2R_flag_overridden :
  Contains (ToUpper "DigitStoreV2R DigitStoreV1") "DIGITSTOREV2R" = true
  /\ DigitStore_class all_classes
       (new_AliMUONReconstructor "DigitStoreV2R DigitStoreV1" default_param) []
     = Some "AliMUONDigitStoreV1"
  /\ DigitStore_class all_classes
       (new_AliMUONReconstructor "DigitStoreV2R DigitStoreV1" default_param) []
     <> Some "AliMUONDigitStoreV2R".
Proof. split; [reflexivity|]. split; [reflexivity|]. discriminate. Qed.

(** *** The calibrator *)

Example calibrator_created :
  CreateCalibrator good_run (new_AliMUONReconstructor "" default_param) =
  ([AliInfo "Calibration will occur."],
   Returns (mkReconstructor "" default_param None
              (Some (mkCalibrationData 137161))
              (Some (mkDigitCalibrator (mkCalibrationData 137161) default_param "NOGAIN")))).
Proof. reflexivity. Qed.

(** C3. [CreateCalibrator] builds the calibration data for the run set in
    the conditions-database manager. If the data are not valid it logs the
    error, deletes them and returns with [fCalibrationData] at 0x0 and
    [fDigitCalibrator] as it was, which is 0x0 when no calibrator existed.
    If they are valid and the pedestals, the gains or the HV are missing it
    aborts, no calibrator having been made. Only when all of them are
    present does it make the digit calibrator, from these calibration
    data. *)
Theorem CreateCalibrator_cases (cdb : AliCDBManager) (r : AliMUONReconstructor) :
  let run := GetRun cdb in
  let data := mkCalibrationData run in
  (IsValid cdb run = false ->
   CreateCalibrator cdb r =
     ([AliInfo "Calibration will occur.";
       AliError "Could not retrieve calibrations !"],
      Returns (set_fCalibrationData None r))
   /\ fCalibrationData (set_fCalibrationData None r) = None
   /\ fDigitCalibrator (set_fCalibrationData None r) = fDigitCalibrator r
   /\ (fDigitCalibrator r = None ->
       fDigitCalibrator (set_fCalibrationData None r) = None))
  /\ (IsValid cdb run = true ->
      Pedestals cdb run = false \/ Gains cdb run = false \/ HV cdb run = false ->
      CreateCalibrator cdb r =
        ([AliInfo "Calibration will occur."],
         Aborts "Could not access all required calibration data"
           (set_fCalibrationData (Some data) r))
      /\ fDigitCalibrator (set_fCalibrationData (Some data) r) = fDigitCalibrator r)
  /\ (IsValid cdb run = true -> Pedestals cdb run = true ->
      Gains cdb run = true -> HV cdb run = true ->
      exists log r',
        CreateCalibrator cdb r = (log, Returns r')
        /\ fCalibrationData r' = Some data
        /\ fDigitCalibrator r' =
           Some (mkDigitCalibrator data (GetRecoParam r)
                   (GetCalibrationMode (GetRecoParam r))))
  /\ (forall log r',
        fDigitCalibrator r = None ->
        CreateCalibrator cdb r = (log, Returns r') ->
        fDigitCalibrator r' <> None ->
        IsValid cdb run = true /\ Pedestals cdb run = true
        /\ Gains cdb run = true /\ HV cdb run = true).
Proof.
  intros run data. unfold CreateCalibrator. cbn [fRunNumber]. fold run.
  split; [|split; [|split]].
  - intros Hv. rewrite Hv. cbn.
    split; [reflexivity|]. split; [reflexivity|]. split; [reflexivity|].
    intros Hn. exact Hn.
  - intros Hv Hm. rewrite Hv. cbn [negb].
    assert (Hmiss : negb (Pedestals cdb run) || negb (Gains cdb run)
                    || negb (HV cdb run) = true).
    { destruct Hm as [-> | [-> | ->]]; cbn; rewrite ?orb_true_r; reflexivity. }
    rewrite Hmiss. split; reflexivity.
  - intros Hv Hp Hg Hh. rewrite Hv, Hp, Hg, Hh. cbn.
    eexists _, _. split; [reflexivity|]. split; reflexivity.
  - intros log r' Hnone Hrun Hcal.
    destruct (IsValid cdb run); cbn in Hrun.
    + destruct (Pedestals cdb run); cbn in Hrun; [|discriminate].
      destruct (Gains cdb run); cbn in Hrun; [|discriminate].
      destruct (HV cdb run); cbn in Hrun; [|discriminate].
      repeat split.
    + injection Hrun as _ <-. cbn in Hcal. contradiction.
Qed.

Lemma CreateCalibrator_cases_witness :
  CreateCalibrator invalid_run (new_AliMUONReconstructor "" default_param) =
    ([AliInfo "Calibration will occur.";
      AliError "Could not retrieve calibrations !"],
     Returns (new_AliMUONReconstructor "" default_param))
  /\ CreateCalibrator run_without_HV (new_AliMUONReconstructor "" default_param) =
       ([AliInfo "Calibration will occur."],
        Aborts "Could not access all required calibration data"
          (mkReconstructor "" default_param None
             (Some (mkCalibrationData 137161)) None))
  /\ (exists log r',
        CreateCalibrator good_run (new_AliMUONReconstructor "" default_param) =
          (log, Returns r')
        /\ fCalibrationData r' = Some (mkCalibrationData 137161)
        /\ fDigitCalibrator r' =
           Some (mkDigitCalibrator (mkCalibrationData 137161) default_param "NOGAIN")).
Proof.
  split; [|split].
  - pose proof (CreateCalibrator_cases invalid_run
                  (new_AliMUONReconstructor "" default_param)) as H.
    cbv zeta in H. destruct H as (H & _). apply H. reflexivity.
  - pose proof (CreateCalibrator_cases run_without_HV
                  (new_AliMUONReconstructor "" default_param)) as H.
    cbv zeta in H. destruct H as (_ & H & _). apply H; [reflexivity|].
    right. right. reflexivity.
  - pose proof (CreateCalibrator_cases good_run
                  (new_AliMUONReconstructor "" default_param)) as H.
    cbv zeta in H. destruct H as (_ & _ & H & _). apply H; reflexivity.
Defined.

End MUONReconstructorFacts.

(** ** AliGenParam *)

Module GenParamFacts.
Import GenParam.

Local Open Scope R_scope.

(** *** Decay selection *)

Lemma ChildSelected_after_set (g : AliGenParam) (code ip : Z) :
  constructed g ->
  ChildSelected (set_fChildSelect (<[0%nat := code]> (fChildSelect g)) g) ip = true
  <-> ip = code \/ ip = 0%Z.
Proof.
  unfold constructed, ChildSelected. intros Hg.
  cbn [fChildSelect set_fChildSelect]. rewrite Hg.
  change (<[0%nat := code]> [0; 0; 0; 0; 0]%Z) with [code; 0; 0; 0; 0]%Z.
  cbn [ChildSelected_from nth].
  destruct (Z.eqb_spec code ip) as [->|Hne]; [tauto|].
  destruct (Z.eqb_spec 0 ip) as [<-|Hz]; [tauto|].
  split; [discriminate | intros [->| ->]; contradiction].
Qed.

(** C5, as the code has it. After [Init] on a generator built by the
    constructor, with the forced decay mode semielectronic, dielectron,
    b_jpsi_dielectron or b_psip_dielectron, [ChildSelected(ip)] is true
    exactly when ip is 11 or 0; with the mode semimuonic, dimuon,
    b_jpsi_dimuon, b_psip_dimuon, pitomu or katomu it is true exactly when
    ip is 13 or 0. The code 0 is the content of the four entries of
    [fChildSelect] that [Init] does not set. *)
Theorem ChildSelected_after_Init (g : AliGenParam) (decay : Decay_t) (ip : Z) :
  constructed g ->
  (In decay [semielectronic; dielectron; b_jpsi_dielectron; b_psip_dielectron] ->
   (ChildSelected (Init (ForceDecay decay g)) ip = true <-> ip = 11%Z \/ ip = 0%Z))
  /\ (In decay [semimuonic; dimuon; b_jpsi_dimuon; b_psip_dimuon; pitomu; katomu] ->
      (ChildSelected (Init (ForceDecay decay g)) ip = true <-> ip = 13%Z \/ ip = 0%Z)).
Proof.
  intros Hc.
  assert (Hc' : constructed (ForceDecay decay g)) by exact Hc.
  split; intros Hin; cbn in Hin;
    repeat (destruct Hin as [<-|Hin]; [apply (ChildSelected_after_set _ _ _ Hc')|]);
    contradiction.
Qed.

Lemma ChildSelected_after_Init_witness :
  (ChildSelected (Init (ForceDecay dielectron (example_generator 2))) 11 = true
   <-> 11%Z = 11%Z \/ 11%Z = 0%Z)
  /\ (ChildSelected (Init (ForceDecay katomu (example_generator 2))) 12 = true
      <-> 12%Z = 13%Z \/ 12%Z = 0%Z).
Proof.
  split.
  - apply (ChildSelected_after_Init (example_generator 2) dielectron 11).
    + reflexivity.
    + cbn. tauto.
  - apply (ChildSelected_after_Init (example_generator 2) katomu 12).
    + reflexivity.
    + cbn. tauto.
Defined.

(** The code 0 is selected although it is not the electron code. *)
Lemma ChildSelected_zero :
  ChildSelected (Init (ForceDecay dielectron (example_generator 2))) 0 = true
  /\ 0%Z <> 11%Z.
Proof. split; [reflexivity | discriminate]. Qed.

(** *** Comparisons and the values of the examples *)

Lemma Rltb_true (x y : R) : Rltb x y = true <-> x < y.
Proof. unfold Rltb. destruct (Rlt_dec x y); split; (congruence || tauto). Qed.

Lemma Rltb_false (x y : R) : Rltb x y = false <-> y <= x.
Proof.
  unfold Rltb. destruct (Rlt_dec x y); split; try congruence; try lra.
Qed.

(** Neither below the lower edge nor above the upper one. *)
Lemma window_test (x lo hi : R) :
  Rltb x lo || Rgtb x hi = false <-> lo <= x <= hi.
Proof.
  unfold Rgtb. rewrite orb_false_iff, !Rltb_false. tauto.
Qed.

Lemma window_test' (x lo hi : R) :
  Rgtb x hi || Rltb x lo = false <-> lo <= x <= hi.
Proof.
  unfold Rgtb. rewrite orb_false_iff, !Rltb_false. tauto.
Qed.

Lemma ATan2_pos_x (y x : R) : 0 < x -> ATan2 y x = atan (y / x).
Proof. intros H. unfold ATan2. destruct (Rlt_dec 0 x); [reflexivity | lra]. Qed.

Lemma ATan2_up (y : R) : 0 < y -> ATan2 y 0 = PI / 2.
Proof.
  intros H. unfold ATan2.
  destruct (Rlt_dec 0 0); [lra|]. destruct (Rlt_dec 0 y); [reflexivity | lra].
Qed.

Lemma ATan2_back : ATan2 0 (-1) = PI.
Proof.
  unfold ATan2.
  destruct (Rlt_dec 0 (-1)); [lra|]. destruct (Rlt_dec (-1) 0); [|lra].
  destruct (Rle_dec 0 0); [|lra].
  replace (0 / -1) with 0 by lra. rewrite atan_0. lra.
Qed.

Lemma PI_gt_2 : 2 < PI.
Proof. pose proof PI2_1. lra. Qed.

Lemma TanH_0 : TanH 0 = 0.
Proof. unfold TanH, tanh. rewrite sinh_0. unfold Rdiv. apply Rmult_0_l. Qed.

Lemma Sqrt_1 : Sqrt (1 * 1 + 0 * 0) = 1.
Proof. unfold Sqrt. replace (1 * 1 + 0 * 0) with 1 by lra. apply sqrt_1. Qed.

(** *** KinematicSelection *)

(** What the function tests: the momentum window, and the window on the
    angle ATan2(pt, p) formed with the total momentum p. *)
Lemma KinematicSelection_iff (g : AliGenParam) (particle : TParticle) :
  KinematicSelection g particle = true <->
  fPMin g <= momentum particle <= fPMax g
  /\ fThetaMin g <=
       ATan2 (Sqrt (Px particle * Px particle + Py particle * Py particle))
             (momentum particle)
     <= fThetaMax g.
Proof.
  unfold KinematicSelection, momentum. cbv zeta.
  destruct (Rgtb _ (fPMax g) || Rltb _ (fPMin g)) eqn:Ep.
  - split; [discriminate|]. intros [Hp _].
    apply window_test' in Hp. congruence.
  - apply window_test' in Ep.
    destruct (Rgtb _ (fThetaMax g) || Rltb _ (fThetaMin g)) eqn:Et.
    + split; [discriminate|]. intros [_ Ht].
      apply window_test' in Ht. congruence.
    + apply window_test' in Et. tauto.
Qed.

Lemma momentum_backward : momentum backward_particle = 1.
Proof.
  unfold momentum, backward_particle, Sqrt. cbn.
  replace (0 * 0 + 0 * 0 + -1 * -1) with 1 by lra. apply sqrt_1.
Qed.

Lemma pt_backward :
  Sqrt (Px backward_particle * Px backward_particle
        + Py backward_particle * Py backward_particle) = 0.
Proof.
  unfold backward_particle, Sqrt. cbn.
  replace (0 * 0 + 0 * 0) with 0 by lra. apply sqrt_0.
Qed.

(** C6, the code at a particle that flies backwards. With the momentum
    window [0, 10] and the theta window [0, 1], the particle of momentum
    (0, 0, -1) has momentum 1, inside the first, and polar angle Pi,
    outside the second; [KinematicSelection] returns true for it, because
    the angle it tests is ATan2(pt, p) = 0 and not ATan2(pt, pz). *)
Theorem KinematicSelection_accepts_backward :
  KinematicSelection (example_generator 1) backward_particle = true
  /\ fPMin (example_generator 1) <= momentum backward_particle
     <= fPMax (example_generator 1)
  /\ polar_angle backward_particle = PI
  /\ ~ (fThetaMin (example_generator 1) <= polar_angle backward_particle
        <= fThetaMax (example_generator 1)).
Proof.
  assert (Hpol : polar_angle backward_particle = PI).
  { unfold polar_angle. rewrite pt_backward. apply ATan2_back. }
  split; [|split; [|split]].
  - apply KinematicSelection_iff. rewrite pt_backward, momentum_backward.
    rewrite ATan2_pos_x by lra. replace (0 / 1) with 0 by lra. rewrite atan_0.
    cbn. lra.
  - rewrite momentum_backward. cbn. lra.
  - exact Hpol.
  - rewrite Hpol. cbn. pose proof PI_gt_2. lra.
Qed.

(** *** Generate *)

(** A candidate inside both windows whose children are accepted is
    tracked, and the pass leaves the inner loop. *)
Lemma iteration_accepts (g : AliGenParam) (nt0 : Z) (d : Draw) (l : Locals)
  (ncsel : Z) (sel : list (list R * Z)) (och : option (list R)) :
  fVertexSmear g <> perTrack ->
  fThetaMin g <= candidate_theta g d <= fThetaMax g ->
  fPMin g <= candidate_ptot g d <= fPMax g ->
  select_children g (origin0 l) (tl (ImportParticles d)) [] None = Ok (ncsel, sel, och) ->
  fCutOnChild g && (0 <? ncsel)%Z || negb (fCutOnChild g) = true ->
  exists primary children,
    iteration g nt0 d l =
      Ok (Break (mkLocals (ipa l + 1) (origin0 l) (GetBraPart d * fParentWeight g)
                   (stack l ++ primary :: children)))
    /\ mecha primary = "Primary"
    /\ pdg primary = IpParaFunc d
    /\ nth 2 (pmom primary) 0 = candidate_pl g d.
Proof.
  intros Hsm Ht Hp Hsel Hacc. unfold iteration. cbv zeta.
  change (ATan2 _ _) with (candidate_theta g d).
  change (Sqrt _) with (candidate_ptot g d).
  apply window_test in Ht, Hp. rewrite Ht, Hp. cbn [origin0 stack ipa].
  replace (match fVertexSmear g with
           | perTrack => smear (fOrigin g) (fOsigma g) (Rndm6 d)
           | _ => origin0 l
           end) with (origin0 l) by (destruct (fVertexSmear g); congruence).
  rewrite Hsel. cbn [bind]. rewrite Hacc.
  eexists _, _. split; [reflexivity|]. repeat split.
Qed.

(** The example draw: pt = 1 at rapidity 0, so pl = 0, theta = Pi/2 and
    ptot = 1. *)
Lemma example_pl (m : R) : candidate_pl (example_generator m) example_draw = 0.
Proof.
  unfold candidate_pl. cbn. rewrite TanH_0. unfold Rdiv.
  rewrite Rmult_0_r. apply Rmult_0_l.
Qed.

Lemma example_theta (m : R) :
  candidate_theta (example_generator m) example_draw = PI / 2.
Proof.
  unfold candidate_theta. rewrite example_pl. cbn. apply ATan2_up. lra.
Qed.

Lemma example_ptot (m : R) :
  candidate_ptot (example_generator m) example_draw = 1.
Proof.
  unfold candidate_ptot. rewrite example_pl. cbn. apply Sqrt_1.
Qed.

End GenParamFacts.

(** ** AliNanoAODStorage: allocation, copies and empty fields *)

Module NanoAODStorageMore.
Import TStr TStrFacts NanoAODStorage NanoAODStorageFacts.

(** Writing slot [k] of a vector that already agrees with [src] below
    [k] makes it agree below [k + 1]. *)
Lemma copy_slot {A : Type} (src tgt : list A) (k : nat) (x : A) :
  src !! k = Some x -> (k < length tgt)%nat ->
  <[k := x]> (take k src ++ drop k tgt) = take (S k) src ++ drop (S k) tgt.
Proof.
  intros Hs Ht.
  destruct (lookup_lt_is_Some_2 tgt k Ht) as [y Hy].
  rewrite (drop_S tgt y k Hy), (take_S_r src k x Hs).
  assert (Hl : length (take k src) = k).
  { rewrite length_take. apply lookup_lt_Some in Hs. lia. }
  rewrite <- (Nat.add_0_r k) at 1. rewrite <- Hl at 1.
  rewrite insert_app_r. cbn. now rewrite <- app_assoc.
Qed.

Lemma nth_as_lookup {A : Type} (l : list A) (k : nat) (d : A) :
  (k < length l)%nat -> l !! k = Some (nth k l d).
Proof.
  intros H. destruct (lookup_lt_is_Some_2 l k H) as [y Hy].
  rewrite Hy. f_equal. symmetry. now apply nth_lookup_Some.
Qed.

(** The first [for] loop after [k] rounds. *)
Lemma copy_var_rounds (sto t : AliNanoAODStorage) (k : nat) :
  fNVars sto = Z.of_nat (length (fVars sto)) ->
  fNVars t = fNVars sto -> length (fVars t) = length (fVars sto) ->
  (k <= length (fVars sto))%nat ->
  fold_left (copy_var sto) (seq 0 k) (Ok t) =
  Ok (mkStorage (fNVars t) (take k (fVars sto) ++ drop k (fVars t))
        (fNVarsString t) (fVarsString t)).
Proof.
  intros Hs Hn Hl. induction k as [|k IH]; intros Hk.
  - cbn. rewrite drop_0. now destruct t.
  - rewrite seq_S, fold_left_app, IH by lia. cbn [fold_left copy_var bind Nat.add].
    unfold GetVar. rewrite in_range_true by lia. cbn [bind].
    unfold SetVar. cbn [fNVars fVars fNVarsString fVarsString].
    rewrite in_range_true by lia. rewrite Nat2Z.id.
    rewrite copy_slot; [reflexivity | apply nth_as_lookup; lia | lia].
Qed.

(** The second [for] loop after [k] rounds. *)
Lemma copy_var_string_rounds (sto t : AliNanoAODStorage) (k : nat) :
  fNVarsString sto = Z.of_nat (length (fVarsString sto)) ->
  fNVarsString t = fNVarsString sto ->
  length (fVarsString t) = length (fVarsString sto) ->
  (k <= length (fVarsString sto))%nat ->
  fold_left (copy_var_string sto) (seq 0 k) (Ok t) =
  Ok (mkStorage (fNVars t) (fVars t) (fNVarsString t)
        (take k (fVarsString sto) ++ drop k (fVarsString t))).
Proof.
  intros Hs Hn Hl. induction k as [|k IH]; intros Hk.
  - cbn. rewrite drop_0. now destruct t.
  - rewrite seq_S, fold_left_app, IH by lia.
    cbn [fold_left copy_var_string bind Nat.add].
    unfold GetVarString. rewrite in_range_true by lia. cbn [bind].
    unfold SetVarString. cbn [fNVars fVars fNVarsString fVarsString].
    rewrite in_range_true by lia. rewrite Nat2Z.id.
    rewrite copy_slot; [reflexivity | apply nth_as_lookup; lia | lia].
Qed.

Lemma take_drop_all {A : Type} (src tgt : list A) :
  length tgt = length src ->
  take (length src) src ++ drop (length src) tgt = src.
Proof.
  intros H. rewrite firstn_all, <- H, drop_all. apply app_nil_r.
Qed.

(** X1. Assignment between two distinct objects, from a source that
    holds numeric and string variables, makes the target equal to the
    source and leaves every other object, the source included, as it
    was. *)
Theorem assign_copies (h : gmap nat AliNanoAODStorage) (this sto : nat)
  (s t : AliNanoAODStorage) :
  this <> sto -> h !! sto = Some s -> h !! this = Some t ->
  consistent s -> 0 < fNVars s -> 0 < fNVarsString s ->
  assign this sto h = ([], Ok (<[this := s]> h)).
Proof.
  intros Hne Hs Ht [Hc1 Hc2] Hn Hns. unfold assign. rewrite Hs, Ht.
  rewrite (Allocate_numeric_and_strings _ _ t Hn Hns). cbn [bind].
  destruct (decide (this <> sto)) as [_|Hc]; [|contradiction].
  rewrite lookup_insert_ne by exact Hne. rewrite Hs.
  unfold copy_loops.
  rewrite Hc1 at 1. rewrite Nat2Z.id.
  rewrite copy_var_rounds;
    [| exact Hc1 | reflexivity | cbn; rewrite repeat_length; lia | lia].
  rewrite Hc2 at 1. rewrite Nat2Z.id.
  rewrite copy_var_string_rounds;
    [| exact Hc2 | reflexivity | cbn; rewrite repeat_length; lia | lia].
  cbn [bind fNVars fVars fNVarsString fVarsString].
  rewrite !take_drop_all by (rewrite repeat_length; lia).
  rewrite (insert_insert_eq h). now destruct s.
Qed.

Lemma assign_copies_witness :
  assign 1%nat 2%nat (<[2%nat := two_vars]> (<[1%nat := mkStorage 0 [] 0 []]> ∅)) =
  ([], Ok (<[1%nat := two_vars]>
             (<[2%nat := two_vars]> (<[1%nat := mkStorage 0 [] 0 []]> ∅)))).
Proof.
  apply (assign_copies _ 1%nat 2%nat two_vars (mkStorage 0 [] 0 [])).
  - lia.
  - reflexivity.
  - reflexivity.
  - split; reflexivity.
  - reflexivity.
  - reflexivity.
Defined.

(** X2. When the source holds numeric variables but no string variable,
    assignment copies the numeric variables and leaves the string
    variables of the target, and their count, as they were: they are not
    cleared. *)
Theorem assign_keeps_target_strings (h : gmap nat AliNanoAODStorage)
  (this sto : nat) (s t : AliNanoAODStorage) :
  this <> sto -> h !! sto = Some s -> h !! this = Some t ->
  consistent s -> 0 < fNVars s -> fNVarsString s = 0 ->
  assign this sto h =
  ([], Ok (<[this := mkStorage (fNVars s) (fVars s)
                       (fNVarsString t) (fVarsString t)]> h)).
Proof.
  intros Hne Hs Ht [Hc1 Hc2] Hn Hns. unfold assign. rewrite Hs, Ht.
  rewrite (Allocate_numeric _ _ t Hn) by lia. cbn [bind].
  destruct (decide (this <> sto)) as [_|Hc]; [|contradiction].
  rewrite lookup_insert_ne by exact Hne. rewrite Hs.
  unfold copy_loops.
  rewrite Hc1 at 1. rewrite Nat2Z.id.
  rewrite copy_var_rounds;
    [| exact Hc1 | reflexivity | cbn; rewrite repeat_length; lia | lia].
  rewrite Hns. change (Z.to_nat 0) with 0%nat.
  cbn [seq fold_left bind fNVars fVars fNVarsString fVarsString].
  rewrite take_drop_all by (rewrite repeat_length; lia).
  now rewrite (insert_insert_eq h).
Qed.

Lemma assign_keeps_target_strings_witness :
  assign 1%nat 2%nat
    (<[2%nat := mkStorage 1 [3%float] 0 []]> (<[1%nat := two_vars]> ∅)) =
  ([], Ok (<[1%nat := mkStorage 1 [3%float] 1 ["CINT7-B"]]>
             (<[2%nat := mkStorage 1 [3%float] 0 []]> (<[1%nat := two_vars]> ∅)))).
Proof.
  apply (assign_keeps_target_strings _ 1%nat 2%nat
           (mkStorage 1 [3%float] 0 []) two_vars).
  - lia.
  - reflexivity.
  - reflexivity.
  - split; reflexivity.
  - reflexivity.
  - reflexivity.
Defined.

(** X3. Assigning a storage without variables (as the default constructor
    makes it) changes nothing: the error "Zero size" is logged and the
    target keeps its variables. This holds for self-assignment too. *)
Theorem assign_from_empty (h : gmap nat AliNanoAODStorage)
  (this sto : nat) (s t : AliNanoAODStorage) :
  h !! sto = Some s -> h !! this = Some t ->
  fNVars s = 0 -> fNVarsString s = 0 ->
  assign this sto h = ([AliError "Zero size"], Ok h).
Proof.
  intros Hs Ht Hn Hns. unfold assign. rewrite Hs, Ht, Hn.
  rewrite Allocate_zero. cbn [bind]. cbv zeta.
  rewrite (insert_id h this t Ht).
  destruct (decide (this <> sto)) as [_|_]; [|reflexivity].
  rewrite Hs. unfold copy_loops. rewrite Hn, Hns.
  change (Z.to_nat 0) with 0%nat. cbn [seq fold_left bind].
  now rewrite (insert_id h this t Ht).
Qed.

Lemma assign_from_empty_witness :
  assign 1%nat 2%nat
    (<[2%nat := mkStorage 0 [] 0 []]> (<[1%nat := two_vars]> ∅)) =
  ([AliError "Zero size"],
   Ok (<[2%nat := mkStorage 0 [] 0 []]> (<[1%nat := two_vars]> ∅))).
Proof.
  apply (assign_from_empty _ 1%nat 2%nat (mkStorage 0 [] 0 []) two_vars);
    reflexivity.
Defined.

(** X4. [AllocateInternalStorage] throws exactly when the size is
    negative; for any other size it returns, and a storage whose recorded
    sizes were those of its vectors is again such a storage. Allocating
    again with the same sizes changes nothing more. *)
Theorem AllocateInternalStorage_outcomes (size sizeString : Z)
  (s : AliNanoAODStorage) :
  (size < 0 <->
   snd (AllocateInternalStorage size sizeString s) = Throw "std::length_error")
  /\ (0 <= size ->
      exists s',
        snd (AllocateInternalStorage size sizeString s) = Ok s'
        /\ (consistent s -> consistent s')
        /\ AllocateInternalStorage size sizeString s' =
           AllocateInternalStorage size sizeString s).
Proof.
  split.
  - split.
    + intros H. unfold AllocateInternalStorage, clear_resize.
      destruct (Z.eqb_spec size 0); [lia|].
      destruct (Z.ltb_spec size 0); [reflexivity | lia].
    + intros H. destruct (Z_lt_le_dec size 0) as [Hlt|Hge]; [exact Hlt|].
      exfalso. destruct (Z.eq_dec size 0) as [->|Hnz].
      * rewrite Allocate_zero in H. discriminate.
      * destruct (Z_lt_le_dec 0 sizeString) as [Hs|Hs].
        -- rewrite Allocate_numeric_and_strings in H by lia. discriminate.
        -- rewrite Allocate_numeric in H by lia. discriminate.
  - intros Hge. destruct (Z.eq_dec size 0) as [->|Hnz].
    + exists s. rewrite Allocate_zero.
      split; [reflexivity|]. split; [intros Hc; exact Hc | reflexivity].
    + destruct (Z_lt_le_dec 0 sizeString) as [Hs|Hs].
      * eexists. rewrite Allocate_numeric_and_strings by lia.
        split; [reflexivity|]. split.
        -- intros _. split; cbn; symmetry; apply repeat_length_Z; lia.
        -- now rewrite !Allocate_numeric_and_strings by lia.
      * eexists. rewrite Allocate_numeric by lia.
        split; [reflexivity|]. split.
        -- intros [_ Hc]. split; cbn; [symmetry; apply repeat_length_Z; lia | exact Hc].
        -- now rewrite !Allocate_numeric by lia.
Qed.

Lemma AllocateInternalStorage_outcomes_witness :
  snd (AllocateInternalStorage (-4) 1 two_vars) = Throw "std::length_error"
  /\ (exists s',
        snd (AllocateInternalStorage 3 0 two_vars) = Ok s'
        /\ (consistent two_vars -> consistent s')
        /\ AllocateInternalStorage 3 0 s' = AllocateInternalStorage 3 0 two_vars).
Proof.
  split.
  - apply (AllocateInternalStorage_outcomes (-4) 1 two_vars). lia.
  - apply (AllocateInternalStorage_outcomes 3 0 two_vars). lia.
Defined.

(** *** Empty fields of the header *)

Lemma Tokenize_from_count (delim cur s : string) :
  (length (Tokenize_from delim cur s) <=
   (match cur with EmptyString => 0 | _ => 1 end) + String.length s)%nat.
Proof.
  revert cur. induction s as [|x s IH]; intros cur; cbn [Tokenize_from String.length].
  - destruct cur; cbn; lia.
  - destruct (is_delim delim x).
    + destruct cur; cbn [length]; specialize (IH EmptyString); cbn in IH; lia.
    + specialize (IH (String.append cur (String x EmptyString))).
      destruct cur; cbn in IH |- *; lia.
Qed.

(** X5. The count is never negative and never more than the number of
    tokens, which is at most the length of the header; an empty field
    (two commas in a row, a comma at either end) adds nothing, while a
    field that holds a space adds one. *)
Theorem GetStringParameters_fields (h a b : string) :
  0 <= GetStringParameters h <= Z.of_nat (length (Tokenize "," h))
  /\ Z.of_nat (length (Tokenize "," h)) <= Z.of_nat (String.length h)
  /\ GetStringParameters (String.append a (String "," (String "," b))) =
     GetStringParameters (String.append a (String "," b))
  /\ GetStringParameters (String "," a) = GetStringParameters a
  /\ GetStringParameters (String.append a ",") = GetStringParameters a
  /\ GetStringParameters (String.append a (String "," (String " " (String "," b)))) =
     GetStringParameters a + 1 + GetStringParameters b.
Proof.
  split; [|split; [|split; [|split; [|split]]]].
  - rewrite GetStringParameters_count.
    pose proof (List.filter_length_le counted (Tokenize "," h)). lia.
  - pose proof (Tokenize_from_count "," EmptyString h) as H.
    unfold Tokenize. cbn in H. lia.
  - rewrite !GetStringParameters_comma.
    change (String "," b) with (String.append EmptyString (String "," b)).
    rewrite GetStringParameters_comma. reflexivity.
  - change (String "," a) with (String.append EmptyString (String "," a)).
    rewrite GetStringParameters_comma. reflexivity.
  - rewrite GetStringParameters_comma. change (GetStringParameters "") with 0. lia.
  - rewrite GetStringParameters_comma.
    change (String " " (String "," b)) with (String.append " " (String "," b)).
    rewrite GetStringParameters_comma. change (GetStringParameters " ") with 1. lia.
Qed.

End NanoAODStorageMore.

(** ** AliMUONReconstructor: the members created on demand *)

Module MUONLifecycleFacts.
Import TStr TStrFacts MUONReconstructor MUONReconstructorFacts MUONLifecycle.

(** *** Upper case *)

Lemma toupper_idem (c : ascii) : toupper (toupper c) = toupper c.
Proof.
  destruct c as [b0 b1 b2 b3 b4 b5 b6 b7].
  destruct b0, b1, b2, b3, b4, b5, b6, b7; reflexivity.
Qed.

Lemma ToUpper_idem (s : string) : ToUpper (ToUpper s) = ToUpper s.
Proof.
  induction s as [|c s IH]; cbn; [reflexivity|]. now rewrite toupper_idem, IH.
Qed.

Lemma ToUpper_app (a b : string) :
  ToUpper (String.append a b) = String.append (ToUpper a) (ToUpper b).
Proof. induction a as [|c a IH]; cbn; [reflexivity | now rewrite IH]. Qed.

Lemma Substring_embedded (pat s pre post : string) :
  Substring pat s ->
  Substring pat (String.append pre (String.append s post)).
Proof.
  intros (u & v & ->). exists (String.append pre u), (String.append v post).
  now rewrite !append_assoc.
Qed.

(** *** The clustering mode *)

Lemma recognised_iff (s : string) :
  snd (CreateClusterFinder s) <> None <->
  exists mode, In mode (map fst clustering_modes) /\ Substring mode (ToUpper s).
Proof.
  rewrite CreateClusterFinder_refines. unfold CreateClusterFinder_spec.
  destruct (List.find _ clustering_modes) as [m|] eqn:Hf; cbn [snd].
  - apply List.find_some in Hf as [Hin Hm]. split; [|discriminate].
    intros _. exists (fst m).
    split; [exact (in_map fst _ _ Hin) | now apply strstr_iff].
  - split; [congruence|].
    intros [mode [Hin Hsub]]. apply in_map_iff in Hin as [m [<- Hin]].
    apply strstr_iff in Hsub.
    pose proof (List.find_none _ _ Hf m Hin) as Hn. cbn in Hn. congruence.
Qed.

(** X6. The clustering mode is read without regard to case: two strings
    with the same upper-case form give the same clusterizer and the same
    log, and so does the upper-case form itself. *)
Theorem CreateClusterFinder_ignores_case (s s' : string) :
  (ToUpper s = ToUpper s' -> CreateClusterFinder s = CreateClusterFinder s')
  /\ CreateClusterFinder (ToUpper s) = CreateClusterFinder s.
Proof.
  split.
  - intros H. unfold CreateClusterFinder. now rewrite H.
  - unfold CreateClusterFinder. now rewrite ToUpper_idem.
Qed.

Lemma CreateClusterFinder_ignores_case_witness :
  CreateClusterFinder "SimpleFitV3" = CreateClusterFinder "simplefitv3".
Proof.
  exact (proj1 (CreateClusterFinder_ignores_case "SimpleFitV3" "simplefitv3")
           eq_refl).
Defined.

(** X7. A mode string that is recognised stays recognised when text is
    put before and after it; the clusterizer may then be another one, as
    for COG inside "precluster cog". *)
Theorem CreateClusterFinder_embedded (s pre post : string) :
  snd (CreateClusterFinder s) <> None ->
  snd (CreateClusterFinder (String.append pre (String.append s post))) <> None.
Proof.
  intros H. apply recognised_iff in H as (mode & Hin & Hsub).
  apply recognised_iff. exists mode. split; [exact Hin|].
  rewrite !ToUpper_app. now apply Substring_embedded.
Qed.

Lemma CreateClusterFinder_embedded_witness :
  snd (CreateClusterFinder "precluster cog") <> None
  /\ CreateClusterFinder "cog" =
     ([], Some (AliMUONClusterFinderCOG AliMUONPreClusterFinder))
  /\ CreateClusterFinder "precluster cog" = ([], Some AliMUONPreClusterFinder).
Proof.
  split; [|split; reflexivity].
  apply (CreateClusterFinder_embedded "cog" "precluster " "").
  discriminate.
Defined.

(** X8. [CreateClusterServer] makes a server exactly when none existed
    and the clustering mode of the reconstruction parameters is
    recognised; the server then holds the clusterizer that
    [CreateClusterFinder] gives for this mode. With an unknown mode the
    error is logged and nothing changes, so the server is still 0x0, and
    an existing server is never replaced. No other member is touched. *)
Theorem CreateClusterServer_cases (m : Members) :
  let mode := GetClusteringMode (GetRecoParam (core m)) in
  (forall c, fClusterServer m = Some c -> CreateClusterServer m = ([], m))
  /\ (fClusterServer m = None ->
      forall f, snd (CreateClusterFinder mode) = Some f ->
        snd (CreateClusterServer m) = set_fClusterServer (Some (mkClusterServer f)) m)
  /\ (fClusterServer m = None ->
      (forall known, In known (map fst clustering_modes) ->
                     ~ Substring known (ToUpper mode)) ->
      CreateClusterServer m = ([AliError (no_such_mode (ToUpper mode))], m)).
Proof.
  intros mode. unfold CreateClusterServer. fold mode.
  split; [|split].
  - intros c ->. reflexivity.
  - intros -> f Hf. destruct (CreateClusterFinder mode) as [log cf].
    cbn in Hf. subst cf. reflexivity.
  - intros -> Hnone.
    assert (Hn : snd (CreateClusterFinder mode) = None).
    { destruct (snd (CreateClusterFinder mode)) eqn:E; [|reflexivity].
      exfalso. assert (Hr : snd (CreateClusterFinder mode) <> None) by congruence.
      apply recognised_iff in Hr as (k & Hin & Hsub). exact (Hnone k Hin Hsub). }
    rewrite CreateClusterFinder_refines in Hn |- *.
    unfold CreateClusterFinder_spec in Hn |- *.
    destruct (List.find _ clustering_modes); [discriminate Hn | reflexivity].
Qed.

Lemma CreateClusterServer_cases_witness :
  snd (CreateClusterServer (new_Members "" default_param)) =
    set_fClusterServer
      (Some (mkClusterServer (AliMUONClusterFinderMLEM false AliMUONPreClusterFinder)))
      (new_Members "" default_param)
  /\ CreateClusterServer (new_Members "" (mkRecoParam "NOCLUSTERING" "")) =
     ([AliError (no_such_mode "NOCLUSTERING")],
      new_Members "" (mkRecoParam "NOCLUSTERING" "")).
Proof.
  split.
  - pose proof (CreateClusterServer_cases (new_Members "" default_param)) as H.
    cbv zeta in H. destruct H as (_ & H & _). apply H; reflexivity.
  - pose proof (CreateClusterServer_cases
                  (new_Members "" (mkRecoParam "NOCLUSTERING" ""))) as H.
    cbv zeta in H. destruct H as (_ & _ & H). apply H; [reflexivity|].
    intros known Hin Hsub. apply strstr_iff in Hsub.
    cbn in Hin.
    repeat (destruct Hin as [<-|Hin]; [vm_compute in Hsub; discriminate|]).
    exact Hin.
Defined.

(** *** The digit maker *)

(** X9. [CreateDigitMaker] makes the digit maker once. Error logging is
    on; the fast tracker decoder is off exactly when the option, as
    written, contains NOFASTTRKDECODER or NOFASTDECODERS, the fast trigger
    decoder exactly when it contains NOFASTTRGDECODER or NOFASTDECODERS;
    [SetMakeTriggerDigits(kTRUE)] is called exactly when the upper-cased
    option contains SAVEDIGITS, and is not called otherwise. A later call
    changes nothing, whatever the option has become. *)
Theorem CreateDigitMaker_once (m : Members) :
  fDigitMaker m = None ->
  let option := GetOption (core m) in
  exists d,
    CreateDigitMaker m = set_fDigitMaker (Some d) m
    /\ enableErrorLogging d = true
    /\ (useFastTrackerDecoder d = false <->
        Substring "NOFASTTRKDECODER" option \/ Substring "NOFASTDECODERS" option)
    /\ (useFastTriggerDecoder d = false <->
        Substring "NOFASTTRGDECODER" option \/ Substring "NOFASTDECODERS" option)
    /\ (MakeTriggerDigits d = Some true <-> Substring "SAVEDIGITS" (ToUpper option))
    /\ (MakeTriggerDigits d = None <-> ~ Substring "SAVEDIGITS" (ToUpper option))
    /\ (forall option' : string,
          CreateDigitMaker
            (set_core (SetOption option' (core m)) (set_fDigitMaker (Some d) m)) =
          set_core (SetOption option' (core m)) (set_fDigitMaker (Some d) m)).
Proof.
  intros Hnone option. unfold CreateDigitMaker. rewrite Hnone. cbv zeta.
  fold option. unfold Contains, kTRUE, kFALSE.
  destruct (strstr option "NOFASTTRKDECODER") eqn:E1;
    destruct (strstr option "NOFASTTRGDECODER") eqn:E2;
    destruct (strstr option "NOFASTDECODERS") eqn:E3;
    destruct (strstr (ToUpper option) "SAVEDIGITS") eqn:E4;
    (eexists; split; [reflexivity|]; cbn;
     rewrite <- !strstr_iff, E1, E2, E3, E4;
     repeat split; try tauto; try discriminate; try congruence;
     try (intros [H|H]; discriminate)).
Qed.

Lemma CreateDigitMaker_once_witness :
  exists d,
    CreateDigitMaker (new_Members "savedigits nofastdecoders" default_param) =
      set_fDigitMaker (Some d) (new_Members "savedigits nofastdecoders" default_param)
    /\ useFastTrackerDecoder d = true
    /\ MakeTriggerDigits d = Some true.
Proof.
  destruct (CreateDigitMaker_once
              (new_Members "savedigits nofastdecoders" default_param) eq_refl)
    as (d & Hd & _ & _ & _ & Hs & _).
  exists d. split; [exact Hd|].
  split.
  - vm_compute in Hd. injection Hd as <-. reflexivity.
  - apply Hs. apply strstr_iff. reflexivity.
Defined.

(** X10. [HasDigitConversion] is true exactly when the upper-cased option
    contains SAVEDIGITS and does not contain NOLOCALRECONSTRUCTION, so
    the case of the option does not matter; whenever it is true, the digit
    maker that [CreateDigitMaker] makes under this option has been told to
    make the trigger digits. *)
Theorem HasDigitConversion_and_digit_maker (m : Members) :
  let sopt := ToUpper (GetOption (core m)) in
  (HasDigitConversion (core m) = true <->
   Substring "SAVEDIGITS" sopt /\ ~ Substring "NOLOCALRECONSTRUCTION" sopt)
  /\ HasDigitConversion (SetOption sopt (core m)) = HasDigitConversion (core m)
  /\ (HasDigitConversion (core m) = true -> fDigitMaker m = None ->
      exists d, fDigitMaker (CreateDigitMaker m) = Some d
                /\ MakeTriggerDigits d = Some true).
Proof.
  intros sopt. split; [|split].
  - unfold HasDigitConversion, Contains, kTRUE, kFALSE. fold sopt.
    rewrite <- strstr_iff, <- strstr_false_iff.
    destruct (strstr sopt "SAVEDIGITS"), (strstr sopt "NOLOCALRECONSTRUCTION");
      cbn; split; try tauto; try discriminate; intros [? ?]; discriminate.
  - unfold HasDigitConversion. cbn [GetOption SetOption].
    unfold sopt. now rewrite ToUpper_idem.
  - intros Hh Hnone. unfold HasDigitConversion, Contains, kTRUE, kFALSE in Hh.
    fold sopt in Hh.
    destruct (strstr sopt "SAVEDIGITS") eqn:E; [|discriminate].
    unfold CreateDigitMaker. rewrite Hnone. cbv zeta.
    unfold Contains. unfold sopt in E. rewrite E.
    eexists. split; reflexivity.
Qed.

Lemma HasDigitConversion_and_digit_maker_witness :
  exists d,
    fDigitMaker (CreateDigitMaker (new_Members "SaveDigits" default_param)) = Some d
    /\ MakeTriggerDigits d = Some true.
Proof.
  pose proof (HasDigitConversion_and_digit_maker
                (new_Members "SaveDigits" default_param)) as H.
  cbv zeta in H. destruct H as (_ & _ & H). apply H; reflexivity.
Defined.

(** *** The trigger store *)

(** X11. [TriggerStore()] reads the option at every call. It returns 0x0
    exactly when the upper-cased option contains TRIGGERDISABLE, and then
    the store it held, if any, is deleted; otherwise it returns the store
    it holds, making an AliMUONTriggerStoreV1 first if it holds none. In
    both cases the member afterwards is the pointer returned and no other
    member changes. *)
Theorem TriggerStore_follows_option (m m' : Members) (heap heap' : Heap)
  (p freed : option nat) :
  TriggerStore m heap = (p, m', heap', freed) ->
  let sopt := ToUpper (GetOption (core m)) in
  (p = None <-> Substring "TRIGGERDISABLE" sopt)
  /\ m' = set_fTriggerStore p m
  /\ (p = None -> freed = fTriggerStore m /\ heap' = heap)
  /\ (p <> None -> freed = None)
  /\ (p <> None -> fTriggerStore m <> None -> p = fTriggerStore m /\ heap' = heap)
  /\ (p <> None -> fTriggerStore m = None ->
      p = Some (length heap) /\ heap' = heap ++ ["AliMUONTriggerStoreV1"]
      /\ ClassName heap' (length heap) = Some "AliMUONTriggerStoreV1").
Proof.
  intros H sopt. unfold TriggerStore in H. fold sopt in H. unfold Contains in H.
  rewrite <- strstr_iff.
  destruct (strstr sopt "TRIGGERDISABLE") eqn:E.
  - injection H as <- <- <- <-.
    repeat split; try tauto; try congruence.
  - destruct (fTriggerStore m) as [a|] eqn:Hm; injection H as <- <- <- <-.
    + repeat split; try discriminate; try congruence.
      destruct m; cbn in Hm |- *. now subst.
    + repeat split; try discriminate; try congruence;
        try (intros; apply last_of_heap).
Qed.

Lemma TriggerStore_follows_option_witness :
  (Some 0%nat = None <-> Substring "TRIGGERDISABLE" "SAVEDIGITS")
  /\ (@None nat = None <-> Substring "TRIGGERDISABLE" "TRIGGERDISABLE")
  /\ TriggerStore
       (set_fTriggerStore (Some 0%nat) (new_Members "TriggerDisable" default_param))
       ["AliMUONTriggerStoreV1"]
     = (None, new_Members "TriggerDisable" default_param,
        ["AliMUONTriggerStoreV1"], Some 0%nat).
Proof.
  split; [|split].
  - apply (TriggerStore_follows_option (new_Members "SaveDigits" default_param)
             (set_fTriggerStore (Some 0%nat) (new_Members "SaveDigits" default_param))
             [] ["AliMUONTriggerStoreV1"] (Some 0%nat) None).
    reflexivity.
  - apply (TriggerStore_follows_option
             (set_fTriggerStore (Some 0%nat) (new_Members "TriggerDisable" default_param))
             (new_Members "TriggerDisable" default_param)
             ["AliMUONTriggerStoreV1"] ["AliMUONTriggerStoreV1"] None (Some 0%nat)).
    reflexivity.
  - reflexivity.
Defined.

(** *** Calibration *)

(** X12. [Calibrate] on a reconstructor without calibrator, when the
    calibration data of the run are not valid: [CreateCalibrator] logs
    its error and leaves [fDigitCalibrator] at 0x0, and [Calibrate] goes
    on to call a member function through this null pointer. *)
Theorem Calibrate_without_calibrations (cdb : AliCDBManager)
  (r : AliMUONReconstructor) :
  fDigitCalibrator r = None ->
  IsValid cdb (GetRun cdb) = false ->
  Calibrate cdb r =
  ([AliInfo "Calibration will occur.";
    AliError "Could not retrieve calibrations !"], Undefined).
Proof.
  intros Hn Hv. unfold Calibrate. rewrite Hn.
  unfold CreateCalibrator. cbn [fRunNumber]. rewrite Hv. cbn.
  now rewrite Hn.
Qed.

Lemma Calibrate_without_calibrations_witness :
  Calibrate invalid_run (new_AliMUONReconstructor "" default_param) =
  ([AliInfo "Calibration will occur.";
    AliError "Could not retrieve calibrations !"], Undefined).
Proof.
  apply (Calibrate_without_calibrations invalid_run
           (new_AliMUONReconstructor "" default_param)); reflexivity.
Defined.

(** X13. The calibrator is made at the first [Calibrate], from the
    calibration data of the run set at that time, and kept: once it
    exists [Calibrate] applies it without reading the conditions
    database, whatever run is set and whatever the database holds. When
    the data are valid but the pedestals, the gains or the HV are missing,
    [Calibrate] ends in the fatal error. *)
Theorem Calibrate_keeps_calibrator (cdb cdb' : AliCDBManager)
  (r : AliMUONReconstructor) :
  (forall c, fDigitCalibrator r = Some c -> Calibrate cdb r = ([], Ok (r, c)))
  /\ (fDigitCalibrator r = None ->
      IsValid cdb (GetRun cdb) = true -> Pedestals cdb (GetRun cdb) = true ->
      Gains cdb (GetRun cdb) = true -> HV cdb (GetRun cdb) = true ->
      exists log r',
        let c := mkDigitCalibrator (mkCalibrationData (GetRun cdb)) (GetRecoParam r)
                   (GetCalibrationMode (GetRecoParam r)) in
        Calibrate cdb r = (log, Ok (r', c))
        /\ fDigitCalibrator r' = Some c
        /\ Calibrate cdb' r' = ([], Ok (r', c)))
  /\ (fDigitCalibrator r = None ->
      IsValid cdb (GetRun cdb) = true ->
      Pedestals cdb (GetRun cdb) = false \/ Gains cdb (GetRun cdb) = false
      \/ HV cdb (GetRun cdb) = false ->
      Calibrate cdb r =
      ([AliInfo "Calibration will occur."],
       Fatal "Could not access all required calibration data")).
Proof.
  split; [|split].
  - intros c Hc. unfold Calibrate. rewrite Hc. cbn. now rewrite Hc.
  - intros Hn Hv Hp Hg Hh. unfold Calibrate at 1. rewrite Hn.
    unfold CreateCalibrator. cbn [fRunNumber]. rewrite Hv, Hp, Hg, Hh. cbn.
    eexists _, _. split; [reflexivity|]. split; [reflexivity|].
    unfold Calibrate. reflexivity.
  - intros Hn Hv Hm. unfold Calibrate. rewrite Hn.
    unfold CreateCalibrator. cbn [fRunNumber]. rewrite Hv. cbn [negb].
    assert (Hmiss : negb (Pedestals cdb (GetRun cdb)) || negb (Gains cdb (GetRun cdb))
                    || negb (HV cdb (GetRun cdb)) = true).
    { destruct Hm as [-> | [-> | ->]]; cbn; rewrite ?orb_true_r; reflexivity. }
    rewrite Hmiss. reflexivity.
Qed.

Lemma Calibrate_keeps_calibrator_witness :
  (exists log r',
     Calibrate good_run (new_AliMUONReconstructor "" default_param) =
       (log, Ok (r', mkDigitCalibrator (mkCalibrationData 137161) default_param "NOGAIN"))
     /\ fDigitCalibrator r' =
        Some (mkDigitCalibrator (mkCalibrationData 137161) default_param "NOGAIN")
     /\ Calibrate invalid_run r' =
        ([], Ok (r', mkDigitCalibrator (mkCalibrationData 137161) default_param "NOGAIN")))
  /\ Calibrate run_without_HV (new_AliMUONReconstructor "" default_param) =
     ([AliInfo "Calibration will occur."],
      Fatal "Could not access all required calibration data").
Proof.
  split.
  - apply (Calibrate_keeps_calibrator good_run invalid_run
             (new_AliMUONReconstructor "" default_param)); reflexivity.
  - apply (Calibrate_keeps_calibrator run_without_HV run_without_HV
             (new_AliMUONReconstructor "" default_param)); [reflexivity..|].
    right. right. reflexivity.
Defined.

(** *** The tracker *)

Lemma CreateTriggerCircuit_frame (m : Members) :
  fTriggerCircuit (CreateTriggerCircuit m) <> None
  /\ core (CreateTriggerCircuit m) = core m
  /\ fDigitMaker (CreateTriggerCircuit m) = fDigitMaker m
  /\ fClusterServer (CreateTriggerCircuit m) = fClusterServer m
  /\ fTriggerStore (CreateTriggerCircuit m) = fTriggerStore m.
Proof.
  unfold CreateTriggerCircuit.
  destruct (fTriggerCircuit m) eqn:E; cbn; rewrite ?E; repeat split; discriminate.
Qed.

Lemma CreateDigitMaker_frame (m : Members) :
  fDigitMaker (CreateDigitMaker m) <> None
  /\ core (CreateDigitMaker m) = core m
  /\ fTriggerCircuit (CreateDigitMaker m) = fTriggerCircuit m
  /\ fClusterServer (CreateDigitMaker m) = fClusterServer m
  /\ fTriggerStore (CreateDigitMaker m) = fTriggerStore m.
Proof.
  unfold CreateDigitMaker.
  destruct (fDigitMaker m) eqn:E; cbn; rewrite ?E; repeat split; discriminate.
Qed.

Lemma CreateClusterServer_frame (m : Members) :
  core (snd (CreateClusterServer m)) = core m
  /\ fDigitMaker (snd (CreateClusterServer m)) = fDigitMaker m
  /\ fTriggerCircuit (snd (CreateClusterServer m)) = fTriggerCircuit m
  /\ fTriggerStore (snd (CreateClusterServer m)) = fTriggerStore m.
Proof.
  unfold CreateClusterServer.
  destruct (fClusterServer m); [repeat split|].
  destruct (CreateClusterFinder _) as [log [f|]]; repeat split.
Qed.

(** With the store classes at hand, [DigitStore()] returns the store
    that the reconstructor holds afterwards. *)
Lemma DigitStore_returns (instantiable : string -> bool)
  (r : AliMUONReconstructor) (heap : Heap) :
  instantiable "AliMUONDigitStoreV1" = true ->
  instantiable "AliMUONDigitStoreV2R" = true ->
  instantiable "AliMUONDigitStoreV2S" = true ->
  exists log a r' heap',
    DigitStore instantiable r heap = (log, Ok (Some a, r', heap'))
    /\ fDigitStore r' = Some a
    /\ GetOption r' = GetOption r /\ GetRecoParam r' = GetRecoParam r
    /\ (forall b, fDigitStore r = Some b -> a = b /\ r' = r /\ heap' = heap).
Proof.
  intros H1 H2 H3. destruct (fDigitStore r) as [b|] eqn:Hd.
  - exists [], b, r, heap. rewrite (DigitStore_later_call _ _ _ _ Hd).
    split; [reflexivity|]. split; [exact Hd|].
    split; [reflexivity|]. split; [reflexivity|].
    intros b' Hb'. split; [congruence|]. split; reflexivity.
  - assert (Hi : instantiable (DigitStore_class_spec (ToUpper (GetOption r))) = true).
    { unfold DigitStore_class_spec.
      repeat (match goal with
              | |- context [if Contains ?x ?y then _ else _] => destruct (Contains x y)
              end); assumption. }
    eexists _, _, _, _. rewrite (DigitStore_first_call _ _ _ Hi Hd).
    split; [reflexivity|]. split; [reflexivity|].
    split; [reflexivity|]. split; [reflexivity|].
    intros b Hb. discriminate.
Qed.

(** X14. [CreateTracker], the store classes being at hand, returns a
    tracker built on the reconstructor's own members: the trigger circuit
    and the digit maker, which exist afterwards, and the digit store that
    [DigitStore()] keeps. The tracker receives the cluster server only
    when cluster and track reconstruction are combined, and 0x0 even then
    if the clustering mode is unknown; the trigger store is not touched,
    and members that existed before the call are the ones used. *)
Theorem CreateTracker_uses_members (instantiable : string -> bool)
  (combine : bool) (m : Members) (heap : Heap) :
  instantiable "AliMUONDigitStoreV1" = true ->
  instantiable "AliMUONDigitStoreV2R" = true ->
  instantiable "AliMUONDigitStoreV2S" = true ->
  exists log tracker m' heap',
    CreateTracker instantiable combine m heap = (log, Ok (tracker, m', heap'))
    /\ fTriggerCircuit m' <> None /\ fDigitMaker m' <> None
    /\ fDigitStore (core m') = Some (tracker_digitStore tracker)
    /\ tracker_triggerCircuit tracker = fTriggerCircuit m'
    /\ tracker_digitMaker tracker = fDigitMaker m'
    /\ tracker_clusterServer tracker = (if combine then fClusterServer m' else None)
    /\ fClusterServer m' = fClusterServer (snd (CreateClusterServer m))
    /\ fTriggerStore m' = fTriggerStore m
    /\ (forall d, fDigitMaker m = Some d -> fDigitMaker m' = Some d)
    /\ (forall a, fDigitStore (core m) = Some a ->
          tracker_digitStore tracker = a /\ heap' = heap).
Proof.
  intros H1 H2 H3. unfold CreateTracker.
  set (m1 := CreateTriggerCircuit m).
  set (m2 := CreateDigitMaker m1).
  destruct (CreateTriggerCircuit_frame m) as (Ht1 & Hc1 & Hd1 & Hs1 & Hg1).
  destruct (CreateDigitMaker_frame m1) as (Ht2 & Hc2 & Hd2 & Hs2 & Hg2).
  destruct (CreateClusterServer_frame m2) as (Hc3 & Hd3 & Ht3 & Hg3).
  fold m1 in Ht1, Hc1, Hd1, Hs1, Hg1. fold m2 in Ht2, Hc2, Hd2, Hs2, Hg2.
  assert (Hsrv : fClusterServer (snd (CreateClusterServer m2)) =
                 fClusterServer (snd (CreateClusterServer m))).
  { unfold CreateClusterServer. rewrite Hs2, Hs1, Hc2, Hc1.
    destruct (fClusterServer m) eqn:E; [cbn [snd]; congruence|].
    destruct (CreateClusterFinder _) as [lg [f|]];
      cbn [snd fClusterServer set_fClusterServer]; congruence. }
  destruct (CreateClusterServer m2) as [log1 m3]. cbn [snd] in *.
  destruct (DigitStore_returns instantiable (core m3) heap H1 H2 H3)
    as (log2 & a & r' & heap' & HD & Hr' & _ & _ & Hsame).
  rewrite HD. cbn [bind].
  eexists _, _, _, _. split; [reflexivity|].
  cbn [fTriggerCircuit fDigitMaker core set_core fClusterServer fTriggerStore
       tracker_digitStore tracker_triggerCircuit tracker_digitMaker
       tracker_clusterServer].
  split; [congruence|]. split; [congruence|]. split; [exact Hr'|].
  split; [reflexivity|]. split; [reflexivity|].
  split; [destruct combine; reflexivity|].
  split; [exact Hsrv|]. split; [congruence|]. split.
  - intros d Hd. rewrite Hd3. unfold m2, CreateDigitMaker. rewrite Hd1, Hd.
    congruence.
  - intros b Hb.
    destruct (Hsame b) as (Ha & _ & Hh); [congruence|]. now split.
Qed.

Lemma CreateTracker_uses_members_witness :
  exists log tracker m' heap',
    CreateTracker all_classes true
      (new_Members "DigitStoreV1" (mkRecoParam "NOCLUSTERING" "")) [] =
      (log, Ok (tracker, m', heap'))
    /\ tracker_clusterServer tracker = None
    /\ heap' = ["AliMUONDigitStoreV1"]
    /\ tracker_digitStore tracker = 0%nat.
Proof.
  destruct (CreateTracker_uses_members all_classes true
              (new_Members "DigitStoreV1" (mkRecoParam "NOCLUSTERING" "")) []
              eq_refl eq_refl eq_refl)
    as (log & tracker & m' & heap' & HT & _).
  exists log, tracker, m', heap'. split; [exact HT|].
  vm_compute in HT. injection HT as _ <- _ <-. repeat split.
Defined.

(** *** The digit store when a class is missing *)

(** X19. When the store class that the option asks for cannot be
    instantiated, [DigitStore()] falls back on AliMUONDigitStoreV2R: one
    store of that class is made, kept and returned. When that class
    cannot be instantiated either, the function goes on with the null
    pointer and calls [ClassName()] through it. *)
Theorem DigitStore_fallback (instantiable : string -> bool)
  (r : AliMUONReconstructor) (heap : Heap) :
  fDigitStore r = None ->
  instantiable (DigitStore_class_spec (ToUpper (GetOption r))) = false ->
  (instantiable "AliMUONDigitStoreV2R" = true ->
   snd (DigitStore instantiable r heap) =
     Ok (Some (length heap), set_fDigitStore (Some (length heap)) r,
         heap ++ ["AliMUONDigitStoreV2R"])
   /\ DigitStore_class instantiable r heap = Some "AliMUONDigitStoreV2R")
  /\ (instantiable "AliMUONDigitStoreV2R" = false ->
      snd (DigitStore instantiable r heap) = Undefined
      /\ DigitStore_class instantiable r heap = None).
Proof.
  intros Hnone Hcls. unfold DigitStore_class, DigitStore. rewrite Hnone.
  unfold DigitStore_class_spec in Hcls.
  split; intros H2R;
    destruct (Contains (ToUpper (GetOption r)) "DIGITSTOREV1");
    [|destruct (Contains (ToUpper (GetOption r)) "DIGITSTOREV2R");
      [|destruct (Contains (ToUpper (GetOption r)) "DIGITSTOREV2S")]
     | |destruct (Contains (ToUpper (GetOption r)) "DIGITSTOREV2R");
      [|destruct (Contains (ToUpper (GetOption r)) "DIGITSTOREV2S")]];
    unfold Create; rewrite ?Hcls, ?H2R; cbn iota beta;
    rewrite ?Hcls, ?H2R; cbn iota beta;
    try congruence;
    rewrite ?last_of_heap; cbn [snd]; rewrite ?last_of_heap; split; reflexivity.
Qed.

Lemma DigitStore_fallback_witness :
  (snd (DigitStore (String.eqb "AliMUONDigitStoreV2R")
          (new_AliMUONReconstructor "DigitStoreV2S" default_param) []) =
     Ok (Some 0%nat,
         set_fDigitStore (Some 0%nat)
           (new_AliMUONReconstructor "DigitStoreV2S" default_param),
         ["AliMUONDigitStoreV2R"])
   /\ DigitStore_class (String.eqb "AliMUONDigitStoreV2R")
        (new_AliMUONReconstructor "DigitStoreV2S" default_param) []
      = Some "AliMUONDigitStoreV2R")
  /\ (snd (DigitStore (fun _ => false)
             (new_AliMUONReconstructor "" default_param) []) = Undefined
      /\ DigitStore_class (fun _ => false)
           (new_AliMUONReconstructor "" default_param) [] = None).
Proof.
  split.
  - apply (DigitStore_fallback (String.eqb "AliMUONDigitStoreV2R")
             (new_AliMUONReconstructor "DigitStoreV2S" default_param) []);
      reflexivity.
  - apply (DigitStore_fallback (fun _ => false)
             (new_AliMUONReconstructor "" default_param) []); reflexivity.
Defined.

End MUONLifecycleFacts.

(** ** AliGenParam: the shape of the stack *)

Module GenParamStackFacts.
Import GenParam GenParamFacts GenParamStack.

Local Open Scope R_scope.

(** *** The decay particle loop *)

Lemma select_children_rows (g : AliGenParam) (orig : list R)
  (particles : list TParticle) :
  forall (sel : list (list R * Z)) (och : option (list R))
         (ncsel : Z) (sel' : list (list R * Z)) (och' : option (list R)),
    select_children g orig particles sel och = Ok (ncsel, sel', och') ->
    (length sel <= 10)%nat -> Forall (row_ok g) sel -> (sel <> [] -> och <> None) ->
    (length sel' <= 10)%nat /\ Forall (row_ok g) sel'
    /\ (sel' <> [] -> och' <> None)
    /\ (ncsel = Z.of_nat (length sel')
        \/ (ncsel = (-1)%Z /\ fCutOnChild g = true)).
Proof.
  induction particles as [|ip rest IH]; intros sel och ncsel sel' och' H Hl Hf Ho;
    cbn [select_children] in H.
  - injection H as <- <- <-.
    split; [exact Hl|]. split; [exact Hf|]. split; [exact Ho|]. left. reflexivity.
  - destruct (ChildSelected g (Z.abs (GetPdgCode ip))) eqn:Ecs;
      [|exact (IH _ _ _ _ _ H Hl Hf Ho)].
    destruct (fCutOnChild g && negb (child_in_cuts g [Px ip; Py ip; Pz ip])) eqn:Ecut.
    + injection H as <- <- <-. apply andb_true_iff in Ecut as [Ec _].
      split; [exact Hl|]. split; [exact Hf|]. split; [intros _; discriminate|].
      right. split; [reflexivity | exact Ec].
    + destruct (10 <=? length sel)%nat eqn:E10; [discriminate|].
      apply Nat.leb_gt in E10.
      apply (IH _ _ _ _ _ H).
      * rewrite length_app. cbn. lia.
      * apply Forall_app. split; [exact Hf|]. constructor; [|constructor].
        split; [exact Ecs|]. cbn [fst]. intros Hc. rewrite Hc in Ecut.
        cbn in Ecut. now apply negb_false_iff in Ecut.
      * discriminate.
Qed.

(** *** Families *)

Lemma families_app (g : AliGenParam) (s s' : list Track) :
  forall n : Z,
    families g n s -> families g (n + Z.of_nat (length s)) s' ->
    families g n (s ++ s').
Proof.
  intros n H. induction H as [n|n primary children rest och
                                Hm Hp Hd Hk Hv Hl Hc Ho Hch Hrest IH]; intros Hs'.
  - cbn in Hs'. now rewrite Z.add_0_r in Hs'.
  - cbn [app]. rewrite <- app_assoc.
    apply (families_cons g n primary children (rest ++ s') och); auto.
    apply IH. cbn [length] in Hs'. rewrite length_app in Hs'.
    replace (n + 1 + Z.of_nat (length children) + Z.of_nat (length rest))%Z
      with (n + Z.of_nat (S (length children + length rest)))%Z by lia.
    exact Hs'.
Qed.

Lemma child_tracks_children (g : AliGenParam) (iparent : Z) (wgtch : R)
  (och : option (list R)) (sel : list (list R * Z)) :
  Forall (row_ok g) sel ->
  Forall (child_of g iparent och) (child_tracks g iparent wgtch och sel).
Proof.
  intros H. unfold child_tracks. induction H as [|row sel [Hr1 Hr2] _ IH]; cbn.
  - constructor.
  - constructor; [|exact IH]. repeat split; assumption.
Qed.

Lemma iteration_families (g : AliGenParam) (nt0 : Z) (d : Draw) (l : Locals)
  (e : exit) :
  iteration g nt0 d l = Ok e ->
  families g nt0 (stack l) -> families g nt0 (stack (locals_of e)).
Proof.
  unfold iteration. cbv zeta. intros He Hl.
  destruct (Rltb _ _ || Rgtb _ _); [injection He as <-; exact Hl|].
  destruct (Rltb _ _ || Rgtb _ _); [injection He as <-; exact Hl|].
  destruct (select_children _ _ _ _ _) as [[[ncsel sel] och]| | |] eqn:Esel;
    cbn [bind] in He; try discriminate.
  destruct (select_children_rows _ _ _ _ _ _ _ _ Esel)
    as (H10 & Hrows & Hoch & Hn); [cbn; lia | constructor | congruence |].
  destruct (fCutOnChild g && (0 <? ncsel)%Z || negb (fCutOnChild g)) eqn:Eacc;
    injection He as <-; cbn [locals_of stack]; [|exact Hl].
  apply families_app; [exact Hl|].
  rewrite <- (app_nil_r (child_tracks _ _ _ _ _)).
  apply (families_cons g _ _ _ [] och); try reflexivity.
  - unfold child_tracks. now rewrite length_map.
  - intros Hc. rewrite Hc in Eacc. cbn in Eacc. rewrite orb_false_r in Eacc.
    apply Z.ltb_lt in Eacc. destruct Hn as [Hn|[Hn _]]; [|lia].
    destruct sel; [cbn in Hn; lia | discriminate].
  - intros Hne. apply Hoch. destruct sel; [contradiction | discriminate].
  - now apply child_tracks_children.
  - constructor.
Qed.

Lemma event_loop_families (g : AliGenParam) (nt0 : Z) (draws : list Draw) :
  forall (inner : bool) (l : Locals) (b : bool) (l' : Locals),
    event_loop g nt0 draws inner l = Ok (b, l') ->
    families g nt0 (stack l) -> families g nt0 (stack l').
Proof.
  induction draws as [|d ds IH]; intros inner l b l' He Hl; cbn in He.
  - destruct (inner || (ipa l <? fNpart g)%Z); injection He as _ <-; exact Hl.
  - destruct (inner || (ipa l <? fNpart g)%Z); [|injection He as _ <-; exact Hl].
    destruct (iteration g nt0 d l) as [e| | |] eqn:Hit; cbn [bind] in He;
      try discriminate.
    pose proof (iteration_families g nt0 d l e Hit Hl) as Hs.
    destruct e as [l1|l1]; exact (IH _ _ _ _ He Hs).
Qed.


Lemma Generate_dimuon :
  exists primary children,
    Generate (Init (example_generator 2)) 0 0 [] [dimuon_draw] =
    Ok (true, mkLocals 1 [0; 0; 0] (1 * 1) (primary :: children)).
Proof.
  destruct (iteration_accepts (Init (example_generator 2)) 0 dimuon_draw
              (mkLocals 0 [0; 0; 0] 0 []) 2
              [([1; 0; 0], 13%Z); ([-1; 0; 0], (-13)%Z)]
              (Some [0 + 0 / 10; 0 + 0 / 10; 0 + 0 / 10]))
    as (primary & children & Hit & _).
  - discriminate.
  - change (candidate_theta (Init (example_generator 2)) dimuon_draw)
      with (candidate_theta (example_generator 2) example_draw).
    rewrite example_theta. cbn. pose proof PI_gt_2. pose proof PI_4. lra.
  - change (candidate_ptot (Init (example_generator 2)) dimuon_draw)
      with (candidate_ptot (example_generator 2) example_draw).
    rewrite example_ptot. cbn. lra.
  - reflexivity.
  - reflexivity.
  - exists primary, children.
    unfold Generate. cbn [fVertexSmear Init example_generator fForceDecay
                          set_fChildSelect fOrigin].
    cbn [event_loop].
    change (false || Z.ltb (ipa (mkLocals 0 [0; 0; 0] 0 []))
                       (fNpart (Init (example_generator 2)))) with true.
    cbv iota.
    change (iteration _ 0 dimuon_draw _)
      with (iteration (Init (example_generator 2)) 0 dimuon_draw
              (mkLocals 0 [0; 0; 0] 0 [])).
    rewrite Hit. reflexivity.
Qed.


(** *** The number of parents *)

Lemma count_primary_app (s s' : list Track) :
  count_primary (s ++ s') = (count_primary s + count_primary s')%nat.
Proof. unfold count_primary. now rewrite List.filter_app, length_app. Qed.

Lemma count_primary_children (g : AliGenParam) (iparent : Z) (wgtch : R)
  (och : option (list R)) (sel : list (list R * Z)) :
  count_primary (child_tracks g iparent wgtch och sel) = 0%nat.
Proof.
  unfold child_tracks, count_primary. induction sel as [|c sel IH]; [reflexivity|].
  cbn [map List.filter]. exact IH.
Qed.

(** One pass adds at most one parent, and counts it. *)
Lemma iteration_count (g : AliGenParam) (nt0 : Z) (d : Draw) (l : Locals) (e : exit) :
  iteration g nt0 d l = Ok e ->
  ipa l = Z.of_nat (count_primary (stack l)) ->
  ipa (locals_of e) = Z.of_nat (count_primary (stack (locals_of e)))
  /\ (ipa l <= ipa (locals_of e) <= ipa l + 1)%Z
  /\ (forall l1, e = Continue l1 -> ipa l1 = ipa l).
Proof.
  unfold iteration. cbv zeta. intros He Hl.
  destruct (Rltb _ _ || Rgtb _ _);
    [injection He as <-; cbn [locals_of ipa stack];
     split; [exact Hl|]; split; [lia|]; intros l1 [= <-]; reflexivity|].
  destruct (Rltb _ _ || Rgtb _ _);
    [injection He as <-; cbn [locals_of ipa stack];
     split; [exact Hl|]; split; [lia|]; intros l1 [= <-]; reflexivity|].
  destruct (select_children _ _ _ _ _) as [[[ncsel sel] och]| | |];
    cbn [bind] in He; try discriminate.
  destruct (fCutOnChild g && (0 <? ncsel)%Z || negb (fCutOnChild g));
    injection He as <-; cbn [locals_of stack ipa].
  - split; [|split; [lia | discriminate]].
    rewrite count_primary_app.
    change (?p :: child_tracks ?a ?b ?c ?dd ?ee)
      with ([p] ++ child_tracks a b c dd ee).
    rewrite count_primary_app, count_primary_children. cbn. lia.
  - split; [exact Hl|]. split; [lia | discriminate].
Qed.

Lemma event_loop_count (g : AliGenParam) (nt0 : Z) (draws : list Draw) :
  forall (inner : bool) (l : Locals) (b : bool) (l' : Locals),
    event_loop g nt0 draws inner l = Ok (b, l') ->
    ipa l = Z.of_nat (count_primary (stack l)) ->
    (inner = true -> ipa l < fNpart g)%Z ->
    (ipa l <= Z.max 0 (fNpart g))%Z ->
    ipa l' = Z.of_nat (count_primary (stack l'))
    /\ (ipa l' <= Z.max 0 (fNpart g))%Z
    /\ (ipa l' <= ipa l + Z.of_nat (length draws))%Z
    /\ (b = true -> fNpart g <= ipa l')%Z
    /\ (b = false -> ipa l' < fNpart g)%Z.
Proof.
  induction draws as [|d ds IH]; intros inner l b l' He Hc Hin Hmax; cbn in He.
  - destruct inner; cbn [orb] in He.
    + injection He as <- <-. specialize (Hin eq_refl).
      repeat split; try lia; try discriminate; auto.
    + destruct (Z.ltb_spec (ipa l) (fNpart g)); injection He as <- <-;
        repeat split; cbn; try lia; try discriminate; auto.
  - assert (Hrun : inner || (ipa l <? fNpart g)%Z = true -> (ipa l < fNpart g)%Z).
    { destruct inner; cbn; [intros _; auto | apply Z.ltb_lt]. }
    destruct (inner || (ipa l <? fNpart g)%Z) eqn:Erun.
    + specialize (Hrun eq_refl).
      destruct (iteration g nt0 d l) as [e| | |] eqn:Hit; cbn [bind] in He;
        try discriminate.
      destruct (iteration_count g nt0 d l e Hit Hc) as (Hc' & Hstep & Hcont).
      destruct e as [l1|l1]; cbn [locals_of] in *.
      * specialize (Hcont l1 eq_refl).
        destruct (IH true l1 b l' He Hc') as (R1 & R2 & R3 & R4 & R5); [lia | lia |].
        cbn [length]. repeat split; auto; lia.
      * destruct (IH false l1 b l' He Hc') as (R1 & R2 & R3 & R4 & R5);
          [discriminate | lia |].
        cbn [length]. repeat split; auto; lia.
    + injection He as <- <-.
      destruct inner; [discriminate|]. cbn in Erun. apply Z.ltb_ge in Erun.
      repeat split; try lia; try discriminate; auto.
Qed.

(** X16. When [Generate] returns, the stack holds exactly [fNpart] parents
    (none if [fNpart] is not positive); when the supply of draws ends
    first, it holds fewer. Each draw gives at most one parent. *)
Theorem Generate_parent_count (g : AliGenParam) (nt0 : Z) (childWeight0 : R)
  (random_event : list R) (draws : list Draw) (b : bool) (l' : Locals) :
  Generate g nt0 childWeight0 random_event draws = Ok (b, l') ->
  ipa l' = Z.of_nat (count_primary (stack l'))
  /\ (b = true -> Z.of_nat (count_primary (stack l')) = Z.max 0 (fNpart g))
  /\ (b = false -> (Z.of_nat (count_primary (stack l')) < fNpart g)%Z)
  /\ (count_primary (stack l') <= length draws)%nat.
Proof.
  unfold Generate. intros He.
  destruct (event_loop_count _ _ _ _ _ _ _ He) as (R1 & R2 & R3 & R4 & R5);
    cbn [ipa stack]; [reflexivity | discriminate | lia |].
  cbn [ipa] in R3. split; [exact R1|]. rewrite <- R1.
  split; [|split].
  - intros Hb. specialize (R4 Hb). lia.
  - exact R5.
  - lia.
Qed.

Lemma Generate_parent_count_witness :
  exists primary children,
    Generate (Init (example_generator 2)) 0 0 [] [dimuon_draw] =
      Ok (true, mkLocals 1 [0; 0; 0] (1 * 1) (primary :: children))
    /\ Z.of_nat (count_primary (primary :: children)) = 1%Z.
Proof.
  destruct Generate_dimuon as (primary & children & HG).
  exists primary, children. split; [exact HG|].
  apply (Generate_parent_count _ _ _ _ _ _ _ HG). reflexivity.
Defined.

(** *** Init after Init *)

(** X18. [Init] writes only the first entry of [fChildSelect], and only
    for the decay modes of its [switch]. When the forced decay mode is
    changed and [Init] runs again, the selection is that of the new mode
    if the [switch] lists it; for a mode that it does not list, the
    selection of the earlier [Init] stays. *)
Theorem Init_again (g : AliGenParam) (first second : Decay_t) (ip : Z) :
  constructed g ->
  (second <> other_decay ->
   ChildSelected (Init (ForceDecay second (Init (ForceDecay first g)))) ip =
   ChildSelected (Init (ForceDecay second g)) ip)
  /\ ChildSelected (Init (ForceDecay other_decay (Init (ForceDecay first g)))) ip =
     ChildSelected (Init (ForceDecay first g)) ip.
Proof.
  unfold constructed. intros Hc. destruct g; cbn in Hc; subst.
  split.
  - intros Hs. destruct first, second; try contradiction; reflexivity.
  - destruct first; reflexivity.
Qed.

Lemma Init_again_witness :
  ChildSelected
    (Init (ForceDecay dielectron (Init (ForceDecay dimuon (example_generator 2))))) 13
  = ChildSelected (Init (ForceDecay dielectron (example_generator 2))) 13
  /\ ChildSelected
       (Init (ForceDecay other_decay (Init (ForceDecay dimuon (example_generator 2))))) 13
     = true.
Proof.
  split.
  - apply (Init_again (example_generator 2) dimuon dielectron 13); [reflexivity|].
    discriminate.
  - reflexivity.
Defined.

End GenParamStackFacts.

(** ** AliGenParam::Generate in the arithmetic of the code *)

Module GenParamFloatFacts.
Import GenParamFloat.

(** *** In every arithmetic *)

Section AnyArithmetic.

Variable A : Arith.

Lemma child_tracks_not_primary (g : AliGenParam A) (all : list (Draw A))
  (iparent : Z) (wgtch : Float_t A) (och : option (list (Float_t A)))
  (sel : list (list (Float_t A) * Z)) :
  Forall (parents_accepted g all) (child_tracks A g iparent wgtch och sel).
Proof.
  unfold child_tracks. apply List.Forall_forall. intros t Ht.
  apply in_map_iff in Ht as [c [<- _]]. intros Hm. cbn in Hm. discriminate.
Qed.

(** A pass through a null pointer is undefined. *)
Lemma iteration_without_Init (g : AliGenParam A) (nt0 : Z) (d : Draw A)
  (l : Locals A) :
  fPythia g = false \/ fYPara g = false \/ (fAnalog g = true /\ fPtPara g = false) ->
  iteration g nt0 d l = Undefined.
Proof.
  unfold iteration. cbv zeta. intros [H | [H | [H1 H2]]].
  - rewrite H. reflexivity.
  - rewrite H. destruct (fPythia g); reflexivity.
  - rewrite H1, H2. destruct (fPythia g), (fYPara g); reflexivity.
Qed.

(** A candidate of which one of the four comparisons holds is dropped:
    the pass ends in [continue], with the particle count and the stack as
    they were. *)
Lemma iteration_continues (g : AliGenParam A) (nt0 : Z) (d : Draw A)
  (l : Locals A) :
  initialised g ->
  rejected g d = true ->
  iteration g nt0 d l = Ok (Continue (resampled g d l)).
Proof.
  intros (Hpy & Hy & Hpt) H. unfold iteration. cbv zeta.
  rewrite Hpy, Hy. cbn [negb].
  destruct (fAnalog g) eqn:Ea.
  - rewrite (Hpt eq_refl). cbn [negb andb].
    unfold rejected, candidate_theta, candidate_ptot, candidate_pl, candidate_xmt,
      candidate_ty, candidate_pt in H. rewrite Ea in H. cbv zeta in H.
    destruct (flt A _ (fThetaMin g) || fgt A _ (fThetaMax g)); [reflexivity|].
    cbn [orb] in H. rewrite H. reflexivity.
  - cbn [andb].
    unfold rejected, candidate_theta, candidate_ptot, candidate_pl, candidate_xmt,
      candidate_ty, candidate_pt in H. rewrite Ea in H. cbv zeta in H.
    destruct (flt A _ (fThetaMin g) || fgt A _ (fThetaMax g)); [reflexivity|].
    cbn [orb] in H. rewrite H. reflexivity.
Qed.

(** A pass puts on the stack only a parent of which none of the four
    comparisons held. *)
Lemma iteration_stack (g : AliGenParam A) (all : list (Draw A)) (nt0 : Z)
  (d : Draw A) (l : Locals A) (e : exit A) :
  In d all ->
  iteration g nt0 d l = Ok e ->
  Forall (parents_accepted g all) (stack l) ->
  Forall (parents_accepted g all) (stack (locals_of e)).
Proof.
  unfold iteration. cbv zeta. intros Hd He Hl.
  destruct (fPythia g); [|discriminate]. cbn [negb] in He.
  destruct (fYPara g); [|discriminate]. cbn [negb] in He.
  destruct (fAnalog g && negb (fPtPara g)); [discriminate|].
  change (narrow A (ATan2 A _ _)) with (candidate_theta g d) in He.
  change (narrow A (Sqrt A (widen A (fadd A (fmul A _ _)
            (fmul A (narrow A (ddiv A _ _)) _)))))
    with (candidate_ptot g d) in He.
  destruct (flt A (candidate_theta g d) (fThetaMin g)
            || fgt A (candidate_theta g d) (fThetaMax g)) eqn:Et.
  { injection He as <-. exact Hl. }
  destruct (flt A (candidate_ptot g d) (fPMin g)
            || fgt A (candidate_ptot g d) (fPMax g)) eqn:Ep.
  { injection He as <-. exact Hl. }
  destruct (select_children _ _ _ _ _ _) as [[[ncsel sel] och]| | |];
    cbn [bind] in He; try discriminate.
  destruct (fCutOnChild A g && (0 <? ncsel)%Z || negb (fCutOnChild A g));
    injection He as <-; cbn [locals_of stack]; [|exact Hl].
  apply Forall_app. split; [exact Hl|].
  constructor; [|apply child_tracks_not_primary].
  intros _. exists d. cbn [pmom pdg].
  split; [exact Hd|]. split; [reflexivity|]. split; [reflexivity|].
  unfold rejected. rewrite Et, Ep. reflexivity.
Qed.

Lemma event_loop_stack (g : AliGenParam A) (all : list (Draw A)) (nt0 : Z)
  (draws : list (Draw A)) :
  forall (inner : bool) (l : Locals A) (b : bool) (l' : Locals A),
    (forall d, In d draws -> In d all) ->
    event_loop g nt0 draws inner l = Ok (b, l') ->
    Forall (parents_accepted g all) (stack l) ->
    Forall (parents_accepted g all) (stack l').
Proof.
  induction draws as [|d ds IH]; intros inner l b l' Hsub He Hl; cbn in He.
  - destruct (inner || (ipa l <? fNpart g)%Z); injection He as _ <-; exact Hl.
  - destruct (inner || (ipa l <? fNpart g)%Z); [|injection He as _ <-; exact Hl].
    destruct (iteration g nt0 d l) as [e| | |] eqn:Hit; cbn [bind] in He;
      try discriminate.
    assert (Hd : In d all) by (apply Hsub; left; reflexivity).
    assert (Hds : forall x, In x ds -> In x all) by (intros x Hx; apply Hsub; now right).
    pose proof (iteration_stack g all nt0 d l e Hd Hit Hl) as Hs.
    destruct e as [l1|l1]; exact (IH _ _ _ _ Hds He Hs).
Qed.

(** Every parent on the stack when [Generate] is done, or when the draws
    end, is the candidate of one of the draws, and none of the four
    comparisons held of it. *)
Lemma Generate_stack (g : AliGenParam A) (nt0 : Z) (childWeight0 : Float_t A)
  (random_event : list (Float_t A)) (draws : list (Draw A)) (b : bool)
  (l' : Locals A) :
  Generate g nt0 childWeight0 random_event draws = Ok (b, l') ->
  Forall (parents_accepted g draws) (stack l').
Proof.
  unfold Generate. intros He.
  apply (event_loop_stack g draws _ _ _ _ _ _ (fun _ H => H) He). constructor.
Qed.

(** [Generate] on a generator whose [Init] has not run: the first pass
    calls through the null [fPythia]. *)
Lemma Generate_without_Init (g : AliGenParam A) (nt0 : Z) (childWeight0 : Float_t A)
  (random_event : list (Float_t A)) (d : Draw A) (draws : list (Draw A)) :
  fPythia g = false ->
  (0 < fNpart g)%Z ->
  Generate g nt0 childWeight0 random_event (d :: draws) = Undefined.
Proof.
  intros Hpy Hn. unfold Generate. cbn [event_loop ipa orb].
  apply Z.ltb_lt in Hn. rewrite Hn.
  rewrite iteration_without_Init by (left; exact Hpy). reflexivity.
Qed.

End AnyArithmetic.

(** *** In IEEE 754 arithmetic *)

Lemma SFcompare_antisym (x y : spec_float) :
  SFcompare y x = option_map CompOpp (SFcompare x y).
Proof.
  destruct x as [sx|sx| |sx mx ex], y as [sy|sy| |sy my ey]; cbn;
    try reflexivity;
    try (destruct sx, sy; reflexivity);
    try (destruct sx; reflexivity);
    try (destruct sy; reflexivity).
  pose proof (Pos.compare_cont_antisym mx my Eq) as H. cbn in H.
  destruct sx, sy; try reflexivity;
    rewrite (Z.compare_antisym ex ey); destruct (ex ?= ey)%Z; cbn; try reflexivity;
    rewrite <- H; destruct (Pos.compare_cont Eq mx my); reflexivity.
Qed.

(** Two values that are not NaN are ordered: not [x < y] is [y <= x]. *)
Lemma SFltb_SFleb (x y : spec_float) :
  IsNaN x = false -> IsNaN y = false -> SFltb x y = negb (SFleb y x).
Proof.
  intros Hx Hy. unfold SFltb, SFleb. rewrite (SFcompare_antisym x y).
  destruct (SFcompare x y) as [[| |]|] eqn:E; cbn; try reflexivity.
  destruct x, y; cbn in *; try discriminate;
    repeat match goal with s : bool |- _ => destruct s end; discriminate.
Qed.

(** The two comparisons of a window fail exactly when the value is inside
    it, NaN apart. *)
Lemma float_window_test (lo x hi : spec_float) :
  IsNaN lo = false -> IsNaN x = false -> IsNaN hi = false ->
  SFltb x lo || SFltb hi x = negb (inside lo x hi).
Proof.
  intros Hlo Hx Hhi. unfold inside.
  rewrite (SFltb_SFleb x lo Hx Hlo), (SFltb_SFleb hi x Hhi Hx).
  destruct (SFleb lo x), (SFleb x hi); reflexivity.
Qed.

(** A comparison with NaN is false, so NaN is in no window and passes
    both tests. *)
Lemma NaN_compares_false (lo hi : spec_float) :
  SFltb S754_nan lo = false /\ SFltb hi S754_nan = false
  /\ inside lo S754_nan hi = false.
Proof.
  unfold inside, SFltb, SFleb.
  split; [reflexivity|]. split; destruct hi, lo; reflexivity.
Qed.

(** The generator of the examples before [Init]: [Generate] is undefined
    at its first pass. *)
Lemma Generate_before_Init (m : TMath) :
  Generate (generator_without_Init m) 0 (f32 0) [] [draw_across m] = Undefined.
Proof. apply Generate_without_Init; reflexivity. Qed.

(** The values that the pass of [draw_across] computes. *)
Lemma across_values (thetaMax : spec_float) :
  candidate_pl (example_generator table thetaMax) (draw_across table) = f32 0
  /\ candidate_theta (example_generator table thetaMax) (draw_across table)
     = binary32 half_Pi64
  /\ candidate_ptot (example_generator table thetaMax) (draw_across table) = f32 1
  /\ candidate_p (example_generator table thetaMax) (draw_across table)
     = [f32 1; f32 0; f32 0].
Proof. repeat split; vm_compute; reflexivity. Qed.

(** Rounding decides at the edge of a window: the draw pt = 3.0000001 is
    above fPMax = 3, its [Float_t] is 3, the comparison ptot > fPMax is
    false and the parent is stored. *)
Lemma rounded_candidate_stored :
  SFltb (f64 3) above_3 = true
  /\ candidate_ptot (generator_to_3 table) (draw_above_3 table) = f32 3
  /\ Generate (generator_to_3 table) 0 (f32 0) [] [draw_above_3 table] =
       Ok (true, mkLocals (A := IEEE table) 1 [f32 0; f32 0; f32 0] (f32 1)
                   [mkTrack (A := IEEE table) 0 (-1) 443 [f32 3; f32 0; f32 0] None
                      [f32 0; f32 0; f32 0] (f32 0) "Primary" (f32 1) false]).
Proof. repeat split; vm_compute; reflexivity. Qed.

(** A parent of mass 3 at rapidity 10: ty rounds to 1, pl is +infinity,
    theta = 0 passes the first test, ptot = +infinity is above fPMax and
    the candidate is dropped. *)
Lemma heavy_along_dropped :
  candidate_pl (example_generator table (f32 2)) (draw_heavy_along table)
  = S754_infinity false
  /\ candidate_theta (example_generator table (f32 2)) (draw_heavy_along table)
     = f32 0
  /\ candidate_ptot (example_generator table (f32 2)) (draw_heavy_along table)
     = S754_infinity false
  /\ iteration (example_generator table (f32 2)) 0 (draw_heavy_along table)
       (locals0 table)
     = Ok (Continue (mkLocals (A := IEEE table) 0 [f32 0; f32 0; f32 0] (f32 1) [])).
Proof. repeat split; vm_compute; reflexivity. Qed.

(** The pass of [draw_along], whatever the functions of [TMath] are, as
    long as tanh(10) rounds to 1 in [Float_t] and atan2 of a NaN is NaN:
    pl = 0/0. *)
Lemma along_values (m : TMath) (thetaMax : spec_float) :
  binary32 (TMath_TanH m (f64 10)) = f32 1 ->
  (forall y, TMath_ATan2 m y S754_nan = S754_nan) ->
  candidate_pl (example_generator m thetaMax) (draw_along m) = S754_nan
  /\ candidate_theta (example_generator m thetaMax) (draw_along m) = S754_nan
  /\ candidate_ptot (example_generator m thetaMax) (draw_along m) = S754_nan.
Proof.
  intros Hty Hat.
  assert (Hpl : candidate_pl (example_generator m thetaMax) (draw_along m) = S754_nan).
  { unfold candidate_pl, candidate_ty. cbv zeta.
    change (narrow (IEEE m) (TanH (IEEE m) (YParaRandom (IEEE m) (draw_along m))))
      with (binary32 (TMath_TanH m (f64 10))).
    rewrite Hty. vm_compute. reflexivity. }
  split; [exact Hpl|]. split.
  - unfold candidate_theta. rewrite Hpl.
    change (narrow (IEEE m) (ATan2 (IEEE m) ?y (widen (IEEE m) S754_nan)))
      with (binary32 (TMath_ATan2 m y S754_nan)).
    rewrite Hat. reflexivity.
  - unfold candidate_ptot. cbv zeta. rewrite Hpl. vm_compute. reflexivity.
Qed.

(** The candidate along the beam is stored. *)
Lemma along_stored (m : TMath) (thetaMax : spec_float) :
  binary32 (TMath_TanH m (f64 10)) = f32 1 ->
  (forall y, TMath_ATan2 m y S754_nan = S754_nan) ->
  exists px py : spec_float,
    Generate (example_generator m thetaMax) 0 (f32 0) [] [draw_along m] =
      Ok (true, mkLocals (A := IEEE m) 1 [f32 0; f32 0; f32 0] (f32 1)
                  [mkTrack (A := IEEE m) 0 (-1) 443 [px; py; S754_nan] None
                     [f32 0; f32 0; f32 0] (f32 0) "Primary" (f32 1) false]).
Proof.
  intros Hty Hat.
  destruct (along_values m thetaMax Hty Hat) as (Hpl & Hth & Hpt).
  eexists _, _. unfold Generate.
  cbn [fVertexSmear example_generator fOrigin event_loop orb ipa fNpart Z.ltb Z.compare].
  unfold iteration. cbv zeta.
  change (narrow (IEEE m) (ATan2 (IEEE m) _ _))
    with (candidate_theta (example_generator m thetaMax) (draw_along m)).
  change (narrow (IEEE m) (Sqrt (IEEE m) (widen (IEEE m) (fadd (IEEE m) (fmul (IEEE m) _ _)
            (fmul (IEEE m) (narrow (IEEE m) (ddiv (IEEE m) _ _)) _)))))
    with (candidate_ptot (example_generator m thetaMax) (draw_along m)).
  change (narrow (IEEE m) (ddiv (IEEE m) _ _))
    with (candidate_pl (example_generator m thetaMax) (draw_along m)).
  rewrite Hth, Hpt, Hpl. clear Hth Hpt Hpl.
  destruct thetaMax; cbn; reflexivity.
Qed.




End GenParamFloatFacts.
